(** * codex-feishu-notify: a shallow embedding of [codex_feishu.go]

    The program is a one-shot notifier: it reads one JSON argument, loads two
    environment variables, formats a Feishu card, optionally signs it and
    posts it to a webhook.

    Go strings are byte sequences; they are modelled by [string] (a list of
    8-bit [ascii] bytes).  Go [int], [int64] and [rune] values are modelled by
    [Z]; where the source converts between widths the wrap-around is written
    out. *)

From Stdlib Require Import ZArith List String Ascii Bool Lia.
From Stdlib Require Import DecimalString.
From Stdlib Require DecimalPos DecimalZ.
Import ListNotations.

Local Open Scope string_scope.
Local Open Scope Z_scope.

(** ** Bytes and strings *)

Definition byte := ascii.

(** The numeric value of a byte, in [0, 256). *)
Definition b2z (c : byte) : Z := Z.of_N (N_of_ascii c).

(** Go's conversion [byte(x)]: keep the low eight bits. *)
Definition byte_of (z : Z) : byte := ascii_of_N (Z.to_N (z mod 256)).

(** [len(s)] *)
Definition len (s : string) : Z := Z.of_nat (String.length s).

(** [s[i]] where the source has checked [i < len(s)]. *)
Definition byte_at (s : string) (i : nat) : Z :=
  match String.get i s with
  | Some c => b2z c
  | None => 0
  end.

(** [s[n:]] *)
Fixpoint drop (n : nat) (s : string) : string :=
  match n, s with
  | O, _ => s
  | S n', String _ t => drop n' t
  | S _, EmptyString => EmptyString
  end.

(** ** UTF-8, as the Go runtime converts between [string] and [[]rune]

    [[]rune(s)] is [runtime.stringtoslicerune], a [for range] loop over [s]
    that decodes with [runtime.decoderune]; [string(runes)] is
    [runtime.slicerunetostring], which encodes with [runtime.encoderune]. *)

Module utf8.

Definition runeError : Z := 0xFFFD.
Definition runeSelf : Z := 0x80.
Definition maxRune : Z := 0x10FFFF.
Definition surrogateMin : Z := 0xD800.
Definition surrogateMax : Z := 0xDFFF.

Definition tx : Z := 0x80.
Definition t2 : Z := 0xC0.
Definition t3 : Z := 0xE0.
Definition t4 : Z := 0xF0.
Definition t5 : Z := 0xF8.

Definition maskx : Z := 0x3F.
Definition mask2 : Z := 0x1F.
Definition mask3 : Z := 0x0F.
Definition mask4 : Z := 0x07.

Definition rune1Max : Z := 0x7F.
Definition rune2Max : Z := 0x7FF.
Definition rune3Max : Z := 0xFFFF.

Definition locb : Z := 0x80.
Definition hicb : Z := 0xBF.

(** A continuation byte. *)
Definition cont (b : Z) : bool := (locb <=? b) && (b <=? hicb).

(** [decoderune(s, 0)]: the rune at the head of [s] and its width in bytes.
    Anything that is not a shortest-form encoding of a scalar value decodes
    to [runeError] with width 1. *)
Definition decoderune (s : string) : Z * nat :=
  let n := String.length s in
  let s0 := byte_at s 0 in
  let s1 := byte_at s 1 in
  let s2 := byte_at s 2 in
  let s3 := byte_at s 3 in
  if (t2 <=? s0) && (s0 <? t3) then
    if (1 <? n)%nat && cont s1 then
      let r := Z.lor (Z.shiftl (Z.land s0 mask2) 6) (Z.land s1 maskx) in
      if rune1Max <? r then (r, 2%nat) else (runeError, 1%nat)
    else (runeError, 1%nat)
  else if (t3 <=? s0) && (s0 <? t4) then
    if (2 <? n)%nat && cont s1 && cont s2 then
      let r := Z.lor (Z.lor (Z.shiftl (Z.land s0 mask3) 12)
                            (Z.shiftl (Z.land s1 maskx) 6))
                     (Z.land s2 maskx) in
      if (rune2Max <? r) && negb ((surrogateMin <=? r) && (r <=? surrogateMax))
      then (r, 3%nat) else (runeError, 1%nat)
    else (runeError, 1%nat)
  else if (t4 <=? s0) && (s0 <? t5) then
    if (3 <? n)%nat && cont s1 && cont s2 && cont s3 then
      let r := Z.lor (Z.lor (Z.lor (Z.shiftl (Z.land s0 mask4) 18)
                                   (Z.shiftl (Z.land s1 maskx) 12))
                            (Z.shiftl (Z.land s2 maskx) 6))
                     (Z.land s3 maskx) in
      if (rune3Max <? r) && (r <=? maxRune)
      then (r, 4%nat) else (runeError, 1%nat)
    else (runeError, 1%nat)
  else (runeError, 1%nat).

(** One iteration of [for _, r := range s] on a non-empty [s]: bytes below
    [runeSelf] are runes of width 1, the rest goes through [decoderune]. *)
Definition range_step (s : string) : Z * nat :=
  let c := byte_at s 0 in
  if c <? runeSelf then (c, 1%nat) else decoderune s.

Fixpoint range_runes (fuel : nat) (s : string) : list Z :=
  match fuel with
  | O => []
  | S fuel' =>
      match s with
      | EmptyString => []
      | String _ _ =>
          let '(r, w) := range_step s in
          r :: range_runes fuel' (drop w s)
      end
  end.

(** [[]rune(s)]; every iteration consumes at least one byte, so the length of
    [s] is enough fuel (see [stringtoslicerune_eq]). *)
Definition stringtoslicerune (s : string) : list Z :=
  range_runes (String.length s) s.

(** [encoderune]: the bytes of [r]; values that are not scalar values are
    written as [runeError]. *)
Definition encoderune (r : Z) : string :=
  let i := r mod 2 ^ 32 in
  let three (r : Z) :=
    String (byte_of (Z.lor t3 (b2z (byte_of (Z.shiftr r 12)))))
   (String (byte_of (Z.lor tx (Z.land (b2z (byte_of (Z.shiftr r 6))) maskx)))
   (String (byte_of (Z.lor tx (Z.land (b2z (byte_of r)) maskx)))
    EmptyString)) in
  if i <=? rune1Max then
    String (byte_of r) EmptyString
  else if i <=? rune2Max then
    String (byte_of (Z.lor t2 (b2z (byte_of (Z.shiftr r 6)))))
   (String (byte_of (Z.lor tx (Z.land (b2z (byte_of r)) maskx)))
    EmptyString)
  else if (maxRune <? i) || ((surrogateMin <=? i) && (i <=? surrogateMax)) then
    three runeError
  else if i <=? rune3Max then
    three r
  else
    String (byte_of (Z.lor t4 (b2z (byte_of (Z.shiftr r 18)))))
   (String (byte_of (Z.lor tx (Z.land (b2z (byte_of (Z.shiftr r 12))) maskx)))
   (String (byte_of (Z.lor tx (Z.land (b2z (byte_of (Z.shiftr r 6))) maskx)))
   (String (byte_of (Z.lor tx (Z.land (b2z (byte_of r)) maskx)))
    EmptyString))).

(** [string(runes)] *)
Fixpoint slicerunetostring (a : list Z) : string :=
  match a with
  | [] => EmptyString
  | r :: a' => encoderune r ++ slicerunetostring a'
  end.

(** A Unicode scalar value. *)
Definition valid (r : Z) : Prop :=
  0 <= r <= maxRune /\ ~ (surrogateMin <= r <= surrogateMax).

End utf8.

(** The number of code points of a string, [len([]rune(s))]. *)
Definition rune_count (s : string) : Z :=
  Z.of_nat (List.length (utf8.stringtoslicerune s)).

(** [runes[:k]] for [0 <= k <= len(runes)] *)
Definition slice_to (k : Z) (runes : list Z) : list Z :=
  firstn (Z.to_nat k) runes.

(** ** [truncateRunes] *)

Definition truncateRunes (s : string) (limit : Z) : string :=
  if limit <=? 0 then ""
  else
    let runes := utf8.stringtoslicerune s in
    if Z.of_nat (List.length runes) <=? limit then s
    else if limit <=? 3 then utf8.slicerunetostring (slice_to limit runes)
    else utf8.slicerunetostring (slice_to (limit - 3) runes) ++ "...".

(** ** [strconv] and [fmt] *)

(** The newline character of ["\n"]. *)
Definition nl : string := String "010"%char "".

(** [strconv.FormatInt(i, 10)], which is also what [%d] prints. *)
Definition FormatInt (i : Z) : string := NilZero.string_of_int (Z.to_int i).

(** ** [crypto/sha256], [crypto/hmac] and [encoding/base64]

    Byte strings are processed as lists of byte values. *)

Definition bytes_of_string (s : string) : list Z :=
  map b2z (list_ascii_of_string s).

Definition string_of_bytes (l : list Z) : string :=
  string_of_list_ascii (map byte_of l).

Module sha256.

Definition Size : nat := 32.
Definition BlockSize : nat := 64.

Definition u32 (x : Z) : Z := x mod 2 ^ 32.

(** [bits.RotateLeft32(x, -k)] *)
Definition rotr (k x : Z) : Z :=
  Z.lor (Z.shiftr x k) (u32 (Z.shiftl x (32 - k))).

(** [^x] on [uint32] *)
Definition not32 (x : Z) : Z := Z.lxor x 0xFFFFFFFF.

Definition _K : list Z :=
  [ 0x428A2F98; 0x71374491; 0xB5C0FBCF; 0xE9B5DBA5; 0x3956C25B; 0x59F111F1;
    0x923F82A4; 0xAB1C5ED5; 0xD807AA98; 0x12835B01; 0x243185BE; 0x550C7DC3;
    0x72BE5D74; 0x80DEB1FE; 0x9BDC06A7; 0xC19BF174; 0xE49B69C1; 0xEFBE4786;
    0x0FC19DC6; 0x240CA1CC; 0x2DE92C6F; 0x4A7484AA; 0x5CB0A9DC; 0x76F988DA;
    0x983E5152; 0xA831C66D; 0xB00327C8; 0xBF597FC7; 0xC6E00BF3; 0xD5A79147;
    0x06CA6351; 0x14292967; 0x27B70A85; 0x2E1B2138; 0x4D2C6DFC; 0x53380D13;
    0x650A7354; 0x766A0ABB; 0x81C2C92E; 0x92722C85; 0xA2BFE8A1; 0xA81A664B;
    0xC24B8B70; 0xC76C51A3; 0xD192E819; 0xD6990624; 0xF40E3585; 0x106AA070;
    0x19A4C116; 0x1E376C08; 0x2748774C; 0x34B0BCB5; 0x391C0CB3; 0x4ED8AA4A;
    0x5B9CCA4F; 0x682E6FF3; 0x748F82EE; 0x78A5636F; 0x84C87814; 0x8CC70208;
    0x90BEFFFA; 0xA4506CEB; 0xBEF9A3F7; 0xC67178F2 ].

Definition init : list Z :=
  [ 0x6A09E667; 0xBB67AE85; 0x3C6EF372; 0xA54FF53A;
    0x510E527F; 0x9B05688C; 0x1F83D9AB; 0x5BE0CD19 ].

Definition at_ (l : list Z) (i : nat) : Z := nth i l 0.

(** Big-endian word of four bytes. *)
Definition be32 (b0 b1 b2 b3 : Z) : Z :=
  Z.lor (Z.lor (Z.lor (Z.shiftl b0 24) (Z.shiftl b1 16)) (Z.shiftl b2 8)) b3.

Fixpoint words (n : nat) (p : list Z) : list Z :=
  match n, p with
  | S n', b0 :: b1 :: b2 :: b3 :: p' => be32 b0 b1 b2 b3 :: words n' p'
  | _, _ => []
  end.

(** The message schedule: [w[i]] for [16 <= i < 64], appended one by one. *)
Fixpoint schedule (n : nat) (w : list Z) : list Z :=
  match n with
  | O => w
  | S n' =>
      let i := List.length w in
      let v1 := at_ w (i - 2) in
      let t1 := Z.lxor (Z.lxor (rotr 17 v1) (rotr 19 v1)) (Z.shiftr v1 10) in
      let v2 := at_ w (i - 15) in
      let t2 := Z.lxor (Z.lxor (rotr 7 v2) (rotr 18 v2)) (Z.shiftr v2 3) in
      schedule n' (w ++ [u32 (t1 + at_ w (i - 7) + t2 + at_ w (i - 16))])
  end.

Definition vars : Type := (Z * Z * Z * Z * Z * Z * Z * Z)%type.

Definition round (v : vars) (kw : Z * Z) : vars :=
  let '(a, b, c, d, e, f, g, h) := v in
  let '(k, w) := kw in
  let t1 := u32 (h + Z.lxor (Z.lxor (rotr 6 e) (rotr 11 e)) (rotr 25 e)
                 + Z.lxor (Z.land e f) (Z.land (not32 e) g) + k + w) in
  let t2 := u32 (Z.lxor (Z.lxor (rotr 2 a) (rotr 13 a)) (rotr 22 a)
                 + Z.lxor (Z.lxor (Z.land a b) (Z.land a c)) (Z.land b c)) in
  (u32 (t1 + t2), a, b, c, u32 (d + t1), e, f, g).

(** One 64-byte chunk of [blockGeneric]. *)
Definition block (hs : list Z) (p : list Z) : list Z :=
  let w := schedule 48 (words 16 p) in
  let v0 := (at_ hs 0, at_ hs 1, at_ hs 2, at_ hs 3,
             at_ hs 4, at_ hs 5, at_ hs 6, at_ hs 7) in
  let '(a, b, c, d, e, f, g, h) := fold_left round (combine _K w) v0 in
  [ u32 (at_ hs 0 + a); u32 (at_ hs 1 + b); u32 (at_ hs 2 + c);
    u32 (at_ hs 3 + d); u32 (at_ hs 4 + e); u32 (at_ hs 5 + f);
    u32 (at_ hs 6 + g); u32 (at_ hs 7 + h) ].

(** [for len(p) >= chunk { ...; p = p[chunk:] }] *)
Fixpoint blocks (fuel : nat) (hs : list Z) (p : list Z) : list Z :=
  match fuel with
  | O => hs
  | S fuel' =>
      if (BlockSize <=? List.length p)%nat
      then blocks fuel' (block hs (firstn BlockSize p)) (skipn BlockSize p)
      else hs
  end.

(** Big-endian bytes of a [k]-byte unsigned integer. *)
Fixpoint be_bytes (k : nat) (x : Z) : list Z :=
  match k with
  | O => []
  | S k' => (Z.shiftr x (8 * Z.of_nat k')) mod 256 :: be_bytes k' x
  end.

(** The padding that [checkSum] writes: a one bit, zeros up to 56 bytes
    modulo 64, and the length in bits. *)
Definition padding (n : Z) : list Z :=
  let t := if n mod 64 <? 56 then 56 - n mod 64 else 64 + 56 - n mod 64 in
  0x80 :: repeat 0 (Z.to_nat t - 1) ++ be_bytes 8 ((n * 8) mod 2 ^ 64).

(** The digest of everything written. *)
Definition checkSum (data : list Z) : list Z :=
  let p := (data ++ padding (Z.of_nat (List.length data)))%list in
  flat_map (be_bytes 4) (blocks (List.length p) init p).

(** [sha256.Sum256] *)
Definition Sum256 (data : string) : string :=
  string_of_bytes (checkSum (bytes_of_string data)).

End sha256.

(** Go's [error] values are modelled by their message, [nil] by [None]. *)
Definition error := string.

(** The [hash.Hash] interface. *)
Class Hash (D : Type) : Type := {
  hash_Write : D -> string -> D * option error;
  hash_Sum : D -> string -> string;
  hash_Reset : D -> D;
  hash_Size : nat;
  hash_BlockSize : nat
}.

(** The state of a SHA-256 digest, abstracted to the bytes written since the
    last [hash_Reset]. *)
Record sha256_digest : Type := { written : string }.

(** [sha256.New()] *)
Definition sha256_New : sha256_digest := {| written := "" |}.

#[export] Instance sha256_Hash : Hash sha256_digest := {
  hash_Write d p := ({| written := written d ++ p |}, None);
  hash_Sum d b := b ++ sha256.Sum256 (written d);
  hash_Reset _ := sha256_New;
  hash_Size := sha256.Size;
  hash_BlockSize := sha256.BlockSize
}.

Module hmac.

Record hmac (D : Type) : Type := {
  opad : string;
  ipad : string;
  outer : D;
  inner : D
}.
Arguments opad {D}.
Arguments ipad {D}.
Arguments outer {D}.
Arguments inner {D}.

(** [make([]byte, n)] *)
Definition make (n : nat) : string := string_of_list_ascii (repeat zero n).

(** [copy(dst, src)]: the contents of [dst] afterwards. *)
Definition copy (dst src : string) : string :=
  let k := Nat.min (String.length dst) (String.length src) in
  String.substring 0 k src ++ drop k dst.

(** [for i := range p { p[i] ^= x }] *)
Fixpoint xor_each (x : Z) (p : string) : string :=
  match p with
  | EmptyString => EmptyString
  | String c p' => String (byte_of (Z.lxor (b2z c) x)) (xor_each x p')
  end.

(** [hmac.New(h, key)], where [h0] is what the constructor [h()] returns. *)
Definition New {D : Type} `{Hash D} (h0 : D) (key : string) : hmac D :=
  let outer0 := h0 in
  let inner0 := h0 in
  let blocksize := hash_BlockSize in
  let '(outer1, key1) :=
    if (blocksize <? String.length key)%nat then
      (* If key is too big, hash it. *)
      let outer1 := fst (hash_Write outer0 key) in
      (outer1, hash_Sum outer1 "")
    else (outer0, key) in
  let ipad := xor_each 0x36 (copy (make blocksize) key1) in
  let opad := xor_each 0x5c (copy (make blocksize) key1) in
  {| opad := opad; ipad := ipad; outer := outer1;
     inner := fst (hash_Write inner0 ipad) |}.

Definition hmac_Write {D : Type} `{Hash D} (h : hmac D) (p : string)
  : hmac D * option error :=
  let '(inner', err) := hash_Write (inner h) p in
  ({| opad := opad h; ipad := ipad h; outer := outer h; inner := inner' |}, err).

Definition hmac_Sum {D : Type} `{Hash D} (h : hmac D) (in_ : string) : string :=
  let origLen := String.length in_ in
  let in1 := hash_Sum (inner h) in_ in
  let outer1 := hash_Reset (outer h) in
  let outer2 := fst (hash_Write outer1 (opad h)) in
  let outer3 := fst (hash_Write outer2 (drop origLen in1)) in
  hash_Sum outer3 (String.substring 0 origLen in1).

End hmac.

Module base64.

Definition encodeStd : string :=
  "ABCDEFGHIJKLMNOPQRSTUVWXYZabcdefghijklmnopqrstuvwxyz0123456789+/".

Definition StdPadding : byte := "="%char.

(** [enc.encode[i]] *)
Definition enc (i : Z) : byte :=
  match String.get (Z.to_nat i) encodeStd with
  | Some c => c
  | None => zero
  end.

Definition sextet (val k : Z) : byte := enc (Z.land (Z.shiftr val k) 0x3F).

(** [StdEncoding.Encode]: three bytes become four characters; one or two
    remaining bytes are padded with [=]. *)
Fixpoint encode (src : list Z) : string :=
  match src with
  | [] => EmptyString
  | [b0] =>
      let val := Z.shiftl b0 16 in
      String (sextet val 18) (String (sextet val 12)
     (String StdPadding (String StdPadding EmptyString)))
  | [b0; b1] =>
      let val := Z.lor (Z.shiftl b0 16) (Z.shiftl b1 8) in
      String (sextet val 18) (String (sextet val 12)
     (String (sextet val 6) (String StdPadding EmptyString)))
  | b0 :: b1 :: b2 :: src' =>
      let val := Z.lor (Z.lor (Z.shiftl b0 16) (Z.shiftl b1 8)) b2 in
      String (sextet val 18) (String (sextet val 12)
     (String (sextet val 6) (String (sextet val 0) (encode src'))))
  end.

(** [base64.StdEncoding.EncodeToString] *)
Definition EncodeToString (src : string) : string :=
  encode (bytes_of_string src).

End base64.

(** ** [GenSign] *)

Definition GenSign (secret : string) (timestamp : Z) : string * option error :=
  let stringToSign := FormatInt timestamp ++ nl ++ secret in
  let data := "" in
  let h := hmac.New sha256_New stringToSign in
  let '(h', err) := hmac.hmac_Write h data in
  match err with
  | Some e => ("", Some e)
  | None =>
      let signature := base64.EncodeToString (hmac.hmac_Sum h' "") in
      (signature, None)
  end.

(** ** The data model *)

(** [CodexNotification]: the JSON record Codex passes in. *)
Record CodexNotification : Type := {
  Type_ : string;
  ThreadID : string;
  TurnID : string;
  Cwd : string;
  InputMessages : list string;
  LastAssistantMessage : string
}.

Record FeishuText : Type := {
  text_Tag : string;
  text_Content : string
}.

Record FeishuField : Type := {
  field_IsShort : bool;
  field_Text : FeishuText
}.

(** [Text] is a pointer in the source: [None] is [nil]. *)
Record FeishuDiv : Type := {
  div_Tag : string;
  div_Fields : list FeishuField;
  div_Text : option FeishuText
}.

Record FeishuNote : Type := {
  note_Tag : string;
  note_Elements : list FeishuText
}.

Record FeishuHr : Type := { hr_Tag : string }.

(** The dynamic types stored in [Elements []interface{}]. *)
Inductive element : Type :=
| ElemDiv (d : FeishuDiv)
| ElemHr (h : FeishuHr)
| ElemNote (n : FeishuNote).

Record FeishuCardConfig : Type := { WideScreenMode : bool }.

Record FeishuHeader : Type := {
  header_Title : FeishuText;
  header_Template : string
}.

Record FeishuCard : Type := {
  card_Config : FeishuCardConfig;
  card_Header : FeishuHeader;
  card_Elements : list element
}.

Record FeishuCardMsg : Type := {
  msg_Timestamp : string;
  msg_Sign : string;
  msg_MsgType : string;
  msg_Card : FeishuCard
}.

Record FeishuConfig : Type := {
  WebhookURL : string;
  Secret : string
}.

Record FeishuResponse : Type := {
  Code : Z;
  Msg : string;
  StatusCode : Z;
  StatusMessage : string
}.

(** A value or an error, for calls that return [(T, error)]. *)
Inductive result (A : Type) : Type :=
| Ok (a : A)
| Err (e : error).
Arguments Ok {A} a.
Arguments Err {A} e.

(** ** [encoding/json]: the document that [json.Marshal] writes

    The serialized payload is represented by its JSON document: an object is
    the ordered list of its members, as the encoder emits them. *)

#[warnings="-register-all"] Inductive json : Type :=
| JNull
| JBool (b : bool)
| JNumber (z : Z)
| JString (s : string)
| JArray (items : list json)
| JObject (members : list (string * json)).

(** A string field tagged [omitempty] is left out when it is empty. *)
Definition omitempty_string (key value : string) : list (string * json) :=
  if String.eqb value "" then [] else [(key, JString value)].

(** A slice is [null] when [nil] and an array otherwise.  The program builds
    its slices from literals and [append], so the empty list stands for the
    [nil] slice. *)
Definition marshal_slice {A : Type} (f : A -> json) (l : list A) : json :=
  match l with
  | [] => JNull
  | _ => JArray (map f l)
  end.

Definition marshal_FeishuText (t : FeishuText) : json :=
  JObject [("tag", JString (text_Tag t)); ("content", JString (text_Content t))].

Definition marshal_FeishuField (f : FeishuField) : json :=
  JObject [("is_short", JBool (field_IsShort f));
           ("text", marshal_FeishuText (field_Text f))].

Definition marshal_FeishuDiv (d : FeishuDiv) : json :=
  JObject
    ([("tag", JString (div_Tag d))]
     ++ (match div_Fields d with
         | [] => []
         | fs => [("fields", JArray (map marshal_FeishuField fs))]
         end)
     ++ (match div_Text d with
         | None => []
         | Some t => [("text", marshal_FeishuText t)]
         end))%list.

Definition marshal_FeishuNote (n : FeishuNote) : json :=
  JObject [("tag", JString (note_Tag n));
           ("elements", marshal_slice marshal_FeishuText (note_Elements n))].

Definition marshal_FeishuHr (h : FeishuHr) : json :=
  JObject [("tag", JString (hr_Tag h))].

Definition marshal_element (e : element) : json :=
  match e with
  | ElemDiv d => marshal_FeishuDiv d
  | ElemHr h => marshal_FeishuHr h
  | ElemNote n => marshal_FeishuNote n
  end.

(** [omitempty] never omits a struct, so ["config"] is always written. *)
Definition marshal_FeishuCard (c : FeishuCard) : json :=
  JObject [("config",
            JObject [("wide_screen_mode", JBool (WideScreenMode (card_Config c)))]);
           ("header",
            JObject [("title", marshal_FeishuText (header_Title (card_Header c)));
                     ("template", JString (header_Template (card_Header c)))]);
           ("elements", marshal_slice marshal_element (card_Elements c))].

(** [json.Marshal(cardMsg)]; it cannot fail on this type. *)
Definition marshal_FeishuCardMsg (m : FeishuCardMsg) : json :=
  JObject
    (omitempty_string "timestamp" (msg_Timestamp m)
     ++ omitempty_string "sign" (msg_Sign m)
     ++ [("msg_type", JString (msg_MsgType m));
         ("card", marshal_FeishuCard (msg_Card m))])%list.

(** The member of an object with a given key. *)
Fixpoint lookup (key : string) (members : list (string * json)) : option json :=
  match members with
  | [] => None
  | (k, v) :: rest => if String.eqb k key then Some v else lookup key rest
  end.

Definition member (key : string) (j : json) : option json :=
  match j with
  | JObject members => lookup key members
  | _ => None
  end.

Definition item (i : nat) (j : json) : option json :=
  match j with
  | JArray items => nth_error items i
  | _ => None
  end.

(** [strings.Join] *)
Fixpoint strings_Join (elems : list string) (sep : string) : string :=
  match elems with
  | [] => ""
  | [e] => e
  | e :: rest => e ++ sep ++ strings_Join rest sep
  end.

(** [strings.Contains(s, substr)] as a proposition. *)
Definition Contains (s substr : string) : Prop :=
  exists before after, s = before ++ substr ++ after.

(** [strings.HasSuffix(s, suffix)] as a proposition. *)
Definition HasSuffix (s suffix : string) : Prop :=
  exists before, s = before ++ suffix.

(** ** What the program takes from outside

    [Library] collects the functions of the Go standard library that the
    program calls and that are left uninterpreted here; every theorem holds
    for whatever these functions compute. *)

Class Library : Type := {
  (** [strings.TrimSpace] *)
  strings_TrimSpace : string -> string;
  (** there is nothing to trim from the empty string *)
  strings_TrimSpace_empty : strings_TrimSpace "" = "";
  (** [json.Unmarshal([]byte(s), &notification)] on a zero [CodexNotification] *)
  json_Unmarshal_CodexNotification : string -> result CodexNotification;
  (** [json.Unmarshal(body, &feishuResp)] on a zero [FeishuResponse] *)
  json_Unmarshal_FeishuResponse : string -> result FeishuResponse;
  (** the error, if any, of [http.NewRequest(method, url, body)] *)
  http_NewRequest_error : string -> string -> option error
}.

(** An outgoing [*http.Request]; [req_Body] is the JSON document it carries. *)
Record Request : Type := {
  req_Method : string;
  req_URL : string;
  req_Header : list (string * string);
  req_Body : json
}.

(** An incoming [*http.Response]: its status code and what [io.ReadAll] makes
    of its body. *)
Record Response : Type := {
  resp_StatusCode : Z;
  resp_Body : result string
}.

(** [World] is the environment of one run of the process. *)
Record World : Type := {
  (** [os.Args] *)
  os_Args : list string;
  (** the process environment; [None] for a variable that is not set *)
  environ : string -> option string;
  (** [time.Now().Unix()] at the signing step *)
  now_Unix : Z;
  (** [time.Now().Format("15:04:05")] at the footer note *)
  now_Clock : string;
  (** what [client.Do] returns for a request *)
  webhook : Request -> result Response
}.

(** [os.Getenv]: the empty string for an unset variable. *)
Definition os_Getenv (w : World) (key : string) : string :=
  match environ w key with
  | Some v => v
  | None => ""
  end.

(** Observable effects of a run: what was written to standard output and the
    HTTP requests sent, both in order. *)
Record Effects : Type := {
  stdout : list string;
  sent : list Request
}.

Definition no_effects : Effects := {| stdout := []; sent := [] |}.

(** A computation either returns or ends the process with [os.Exit]. *)
Inductive Outcome (A : Type) : Type :=
| Returned (a : A)
| Exited (code : Z).
Arguments Returned {A} a.
Arguments Exited {A} code.

Definition IO (A : Type) : Type := Effects -> Outcome A * Effects.

Definition ret {A : Type} (a : A) : IO A := fun e => (Returned a, e).

Definition bind {A B : Type} (m : IO A) (k : A -> IO B) : IO B :=
  fun e =>
    match m e with
    | (Returned a, e') => k a e'
    | (Exited code, e') => (Exited code, e')
    end.

Declare Scope io_scope.
Delimit Scope io_scope with io.
Notation "x <- m ;; k" := (bind m (fun x => k))
  (at level 61, m at next level, right associativity) : io_scope.
Notation "m ;; k" := (bind m (fun _ => k))
  (at level 61, right associativity) : io_scope.

(** [fmt.Print]-family calls write one string to standard output. *)
Definition fmt_Print (s : string) : IO unit :=
  fun e => (Returned tt, {| stdout := stdout e ++ [s]; sent := sent e |}).

(** [os.Exit(code)] *)
Definition os_Exit {A : Type} (code : Z) : IO A := fun e => (Exited code, e).

(** [client.Do(req)]: the request goes out and the world answers. *)
Definition client_Do (w : World) (req : Request) : IO (result Response) :=
  fun e => (Returned (webhook w req),
            {| stdout := stdout e; sent := sent e ++ [req] |}).

Definition http_StatusOK : Z := 200.

(** ** The program *)

Section Program.
Context {lib : Library}.
Variable w : World.

Local Open Scope io_scope.

Definition loadConfig : FeishuConfig * option error :=
  let webhook := strings_TrimSpace (os_Getenv w "FEISHU_WEBHOOK_URL") in
  if String.eqb webhook "" then
    ({| WebhookURL := ""; Secret := "" |}, Some "FEISHU_WEBHOOK_URL is not set")
  else
    let secret := strings_TrimSpace (os_Getenv w "FEISHU_SECRET") in
    ({| WebhookURL := webhook; Secret := secret |}, None).

(** Step 2 of [sendFeishuCard]: the timestamp and the signature, both empty
    without a secret; an error of [GenSign] is returned wrapped. *)
Definition signature_fields (cfg : FeishuConfig) : result (string * string) :=
  if negb (String.eqb (Secret cfg) "") then
    let ts := now_Unix w in
    let timestampStr := FormatInt ts in
    let '(sign, err) := GenSign (Secret cfg) ts in
    match err with
    | Some e => Err ("sign generation failed: " ++ e)
    | None => Ok (timestampStr, sign)
    end
  else Ok ("", "").

(** Steps 1, 3 and 4 of [sendFeishuCard]: the card message for a
    notification, given the authentication fields. *)
Definition cardMsg (n : CodexNotification) (timestampStr sign : string)
  : FeishuCardMsg :=
  let userIntent :=
    if (0 <? List.length (InputMessages n))%nat
    then nth 0 (InputMessages n) ""
    else "Unknown Task" in
  let displayTitle := truncateRunes userIntent 30 in
  let elements : list element := [] in
  let inputContent := strings_Join (InputMessages n) nl in
  let elements :=
    (elements ++
     [ElemDiv {| div_Tag := "div";
                 div_Fields := [];
                 div_Text := Some {| text_Tag := "lark_md";
                                     text_Content :=
                                       "**📝 输入指令:**" ++ nl ++ inputContent |} |}])%list in
  let elements := (elements ++ [ElemHr {| hr_Tag := "hr" |}])%list in
  let resultContent := strings_TrimSpace (LastAssistantMessage n) in
  let resultContent :=
    if String.eqb resultContent "" then "（无执行结果描述）" else resultContent in
  let resultContent := truncateRunes resultContent 500 in
  let elements :=
    (elements ++
     [ElemDiv {| div_Tag := "div";
                 div_Fields := [];
                 div_Text := Some {| text_Tag := "lark_md";
                                     text_Content :=
                                       "**✅ 执行结果:**" ++ nl ++ resultContent |} |}])%list in
  let elements := (elements ++ [ElemHr {| hr_Tag := "hr" |}])%list in
  let elements :=
    (elements ++
     [ElemDiv {| div_Tag := "div";
                 div_Fields :=
                   [ {| field_IsShort := true;
                        field_Text :=
                          {| text_Tag := "lark_md";
                             text_Content :=
                               "**📂 工作路径:**" ++ nl ++ "`" ++ Cwd n ++ "`" |} |};
                     {| field_IsShort := true;
                        field_Text :=
                          {| text_Tag := "lark_md";
                             text_Content :=
                               "**🆔 Thread ID:**" ++ nl ++ "`" ++ ThreadID n ++ "`" |} |} ];
                 div_Text := None |}])%list in
  let elements :=
    (elements ++
     [ElemNote {| note_Tag := "note";
                  note_Elements :=
                    [ {| text_Tag := "plain_text";
                         text_Content := "Generated by Codex at " ++ now_Clock w |} ] |}])%list in
  {| msg_Timestamp := timestampStr;
     msg_Sign := sign;
     msg_MsgType := "interactive";
     msg_Card :=
       {| card_Config := {| WideScreenMode := true |};
          card_Header :=
            {| header_Template := "indigo";
               header_Title :=
                 {| text_Tag := "plain_text";
                    text_Content := "🤖 Codex 任务完成: " ++ displayTitle |} |};
          card_Elements := elements |} |}.

(** Step 5 after [io.ReadAll]: what the answer of the webhook means. *)
Definition check_response (statusCode : Z) (bodyBytes : string) : option error :=
  if negb (statusCode =? http_StatusOK) then
    Some ("status: " ++ FormatInt statusCode ++ ", resp: " ++ bodyBytes)
  else
    match json_Unmarshal_FeishuResponse bodyBytes with
    | Err err =>
        Some ("decode feishu response: " ++ err ++ " (payload: " ++ bodyBytes ++ ")")
    | Ok feishuResp =>
        if negb (Code feishuResp =? 0) || negb (StatusCode feishuResp =? 0) then
          Some ("feishu error code=" ++ FormatInt (Code feishuResp)
                ++ " statusCode=" ++ FormatInt (StatusCode feishuResp)
                ++ " msg=" ++ Msg feishuResp
                ++ " statusMessage=" ++ StatusMessage feishuResp)
        else None
    end.

(** The request of step 5: [http.NewRequest("POST", url, body)] with the
    content type set. *)
Definition post_request (cfg : FeishuConfig) (payloadBytes : json) : Request :=
  {| req_Method := "POST";
     req_URL := WebhookURL cfg;
     req_Header := [("Content-Type", "application/json")];
     req_Body := payloadBytes |}.

Definition sendFeishuCard (n : CodexNotification) (cfg : FeishuConfig)
  : IO (option error) :=
  match signature_fields cfg with
  | Err e => ret (Some e)
  | Ok (timestampStr, sign) =>
      let payloadBytes := marshal_FeishuCardMsg (cardMsg n timestampStr sign) in
      match http_NewRequest_error "POST" (WebhookURL cfg) with
      | Some err => ret (Some err)
      | None =>
          let req := post_request cfg payloadBytes in
          resp <- client_Do w req ;;
          match resp with
          | Err err => ret (Some err)
          | Ok resp =>
              match resp_Body resp with
              | Err err => ret (Some err)
              | Ok bodyBytes => ret (check_response (resp_StatusCode resp) bodyBytes)
              end
          end
      end
  end.

(** Lines 99-117 of [main]: the argument count, the configuration and the
    parse of the argument, in this order; each failure prints and exits. *)
Definition startup : IO (FeishuConfig * CodexNotification) :=
  if negb (List.length (os_Args w) =? 2)%nat then
    fmt_Print ("Usage: codex-notify <NOTIFICATION_JSON>" ++ nl) ;;
    os_Exit 1
  else
    let jsonStr := nth 1 (os_Args w) "" in
    let '(cfg, err) := loadConfig in
    match err with
    | Some err =>
        fmt_Print ("Config error: " ++ err ++ nl) ;;
        os_Exit 1
    | None =>
        match json_Unmarshal_CodexNotification jsonStr with
        | Err err =>
            fmt_Print ("Error parsing JSON: " ++ err ++ nl) ;;
            os_Exit 1
        | Ok notification => ret (cfg, notification)
        end
    end.

(** Lines 119-124 of [main]: only a completed turn is delivered. *)
Definition dispatch (cfg : FeishuConfig) (notification : CodexNotification)
  : IO unit :=
  if String.eqb (Type_ notification) "agent-turn-complete" then
    err <- sendFeishuCard notification cfg ;;
    match err with
    | Some err =>
        fmt_Print ("Failed to send notification: " ++ err ++ nl) ;;
        os_Exit 1
    | None => ret tt
    end
  else ret tt.

Definition main : IO unit :=
  parsed <- startup ;;
  dispatch (fst parsed) (snd parsed).

(** One run of the process from a clean slate. *)
Definition run : Outcome unit * Effects := main no_effects.

(** The exit status: 0 when [main] returns. *)
Definition exit_code : Z :=
  match fst run with
  | Returned _ => 0
  | Exited code => code
  end.

End Program.

(** ** The signature as the specification words it

    HMAC (RFC 2104) with SHA-256: the key, hashed first when longer than a
    block, is filled with zeros to 64 bytes; the result is
    [H((K xor opad) || H((K xor ipad) || message))]. *)

Definition spec_HMAC_SHA256 (key message : string) : string :=
  let k0 := if (64 <? String.length key)%nat then sha256.Sum256 key else key in
  let k := k0 ++ hmac.make (64 - String.length k0) in
  sha256.Sum256 (hmac.xor_each 0x5c k
                 ++ sha256.Sum256 (hmac.xor_each 0x36 k ++ message)).

(** The base64 encoding of the keyed hash of the empty message under the key
    made of the decimal timestamp, a newline and the secret. *)
Definition spec_signature (secret : string) (ts : Z) : string :=
  base64.EncodeToString (spec_HMAC_SHA256 (FormatInt ts ++ nl ++ secret) "").

(** ** A library and worlds to run the model on

    [Sample.library] trims the six ASCII space bytes, which is what
    [strings.TrimSpace] does on ASCII input, and answers the two decoders from
    a table of inputs. *)

Module Sample.

Definition asciiSpace (c : byte) : bool :=
  let v := b2z c in
  (v =? 9) || (v =? 10) || (v =? 11) || (v =? 12) || (v =? 13) || (v =? 32).

Fixpoint trim_left (s : string) : string :=
  match s with
  | String c s' => if asciiSpace c then trim_left s' else s
  | EmptyString => EmptyString
  end.

Fixpoint trim_right (s : string) : string :=
  match s with
  | String c s' =>
      match trim_right s' with
      | EmptyString => if asciiSpace c then EmptyString else String c EmptyString
      | t => String c t
      end
  | EmptyString => EmptyString
  end.

Definition TrimSpace (s : string) : string := trim_right (trim_left s).

(** A JSON string literal without escapes. *)
Definition q (s : string) : string :=
  String "034"%char s ++ String "034"%char "".

(** The argument of the README's local test. *)
Definition demo_json : string :=
  "{" ++ q "type" ++ ":" ++ q "agent-turn-complete" ++ ","
      ++ q "thread-id" ++ ":" ++ q "demo" ++ ","
      ++ q "turn-id" ++ ":" ++ q "1" ++ ","
      ++ q "cwd" ++ ":" ++ q "/tmp" ++ ","
      ++ q "input-messages" ++ ":[" ++ q "demo task" ++ "],"
      ++ q "last-assistant-message" ++ ":" ++ q "all done" ++ "}".

Definition demo : CodexNotification :=
  {| Type_ := "agent-turn-complete"; ThreadID := "demo"; TurnID := "1";
     Cwd := "/tmp"; InputMessages := ["demo task"];
     LastAssistantMessage := "all done" |}.

(** A notification of another type. *)
Definition other_json : string := "{" ++ q "type" ++ ":" ++ q "other" ++ "}".

Definition other : CodexNotification :=
  {| Type_ := "other"; ThreadID := ""; TurnID := ""; Cwd := "";
     InputMessages := []; LastAssistantMessage := "" |}.

Definition unmarshal_notification (s : string) : result CodexNotification :=
  if String.eqb s demo_json then Ok demo
  else if String.eqb s other_json then Ok other
  else Err "unexpected end of JSON input".

Definition ok_body : string :=
  "{" ++ q "code" ++ ":0," ++ q "StatusCode" ++ ":0}".

Definition sign_fail_body : string :=
  "{" ++ q "code" ++ ":19021," ++ q "msg" ++ ":" ++ q "sign match fail" ++ "}".

Definition unmarshal_response (s : string) : result FeishuResponse :=
  if String.eqb s ok_body then
    Ok {| Code := 0; Msg := ""; StatusCode := 0; StatusMessage := "" |}
  else if String.eqb s sign_fail_body then
    Ok {| Code := 19021; Msg := "sign match fail";
          StatusCode := 0; StatusMessage := "" |}
  else Err "unexpected end of JSON input".

#[export] Instance library : Library := {
  strings_TrimSpace := TrimSpace;
  strings_TrimSpace_empty := eq_refl;
  json_Unmarshal_CodexNotification := unmarshal_notification;
  json_Unmarshal_FeishuResponse := unmarshal_response;
  http_NewRequest_error _ _ := None
}.

Definition env (url secret : option string) (key : string) : option string :=
  if String.eqb key "FEISHU_WEBHOOK_URL" then url
  else if String.eqb key "FEISHU_SECRET" then secret
  else None.

(** A world: the argument, the two variables and the answer of the webhook. *)
Definition world (arg : string) (url secret : option string)
  (answer : result Response) : World :=
  {| os_Args := ["codex-feishu-notify"; arg];
     environ := env url secret;
     now_Unix := 1700000000;
     now_Clock := "12:34:56";
     webhook := fun _ => answer |}.

Definition hook : option string :=
  Some "https://open.feishu.cn/open-apis/bot/v2/hook/demo".

Definition accepted : result Response :=
  Ok {| resp_StatusCode := 200; resp_Body := Ok ok_body |}.

Definition sign_rejected : result Response :=
  Ok {| resp_StatusCode := 200; resp_Body := Ok sign_fail_body |}.

End Sample.

(** ** Reading the payload

    The places of the JSON document that the claims speak about. *)

Definition and_then {A B : Type} (o : option A) (f : A -> option B) : option B :=
  match o with
  | Some a => f a
  | None => None
  end.

(** [.card.header.title.content] *)
Definition payload_title (body : json) : option json :=
  and_then (and_then (and_then (member "card" body) (member "header"))
              (member "title")) (member "content").

(** [.card.elements[i]] *)
Definition payload_element (i : nat) (body : json) : option json :=
  and_then (and_then (member "card" body) (member "elements")) (item i).

(** [.tag] and [.text.content] of an element *)
Definition element_tag (e : json) : option json := member "tag" e.

Definition element_text (e : json) : option json :=
  and_then (member "text" e) (member "content").

(** ** Runs that end before the notification is looked at *)

(** The run that stops at the configuration: one line on standard output,
    nothing sent, exit code 1. *)
Definition config_error_run : Outcome unit * Effects :=
  (Exited 1,
   {| stdout := ["Config error: FEISHU_WEBHOOK_URL is not set" ++ nl];
      sent := [] |}).

(** The run that stops at the argument count. *)
Definition usage_error_run : Outcome unit * Effects :=
  (Exited 1,
   {| stdout := ["Usage: codex-notify <NOTIFICATION_JSON>" ++ nl];
      sent := [] |}).

(** ** Notions used to state further properties of the code *)

(** Well-formed UTF-8 ([utf8.ValidString]): a string that is the encoding of
    its own code points.  An invalid byte decodes to [runeError], whose
    encoding is three bytes long, so such a string is not a fixed point. *)
Definition well_formed (s : string) : Prop :=
  utf8.slicerunetostring (utf8.stringtoslicerune s) = s.

(** What [string(rune)] makes of a rune: itself when it is a scalar value,
    [runeError] otherwise. *)
Definition scalar_or_error (r : Z) : Z :=
  if (0 <=? r) && (r <=? utf8.maxRune)
     && negb ((utf8.surrogateMin <=? r) && (r <=? utf8.surrogateMax))
  then r else utf8.runeError.

(** [strings.HasPrefix(s, prefix)] as a proposition. *)
Definition HasPrefix (s prefix : string) : Prop :=
  exists rest, s = prefix ++ rest.

(** ** The ways a run can go

    One constructor for each way through [main]: the usage error, the
    configuration error, the parse error, a notification of another type, and
    a delivery that [sendFeishuCard] reports as done or as failed. *)

Section Paths.
Context {lib : Library}.
Variable w : World.

Inductive run_path : Outcome unit * Effects -> Prop :=
| path_usage :
    List.length (os_Args w) <> 2%nat ->
    run_path usage_error_run
| path_config :
    List.length (os_Args w) = 2%nat ->
    strings_TrimSpace (os_Getenv w "FEISHU_WEBHOOK_URL") = "" ->
    run_path config_error_run
| path_parse cfg err :
    List.length (os_Args w) = 2%nat ->
    loadConfig w = (cfg, None) ->
    json_Unmarshal_CodexNotification (nth 1 (os_Args w) "") = Err err ->
    run_path (Exited 1, {| stdout := ["Error parsing JSON: " ++ err ++ nl];
                           sent := [] |})
| path_skip cfg n :
    startup w no_effects = (Returned (cfg, n), no_effects) ->
    Type_ n <> "agent-turn-complete" ->
    run_path (Returned tt, no_effects)
| path_delivered cfg n e :
    startup w no_effects = (Returned (cfg, n), no_effects) ->
    Type_ n = "agent-turn-complete" ->
    sendFeishuCard w n cfg no_effects = (Returned None, e) ->
    run_path (Returned tt, e)
| path_failed cfg n e err :
    startup w no_effects = (Returned (cfg, n), no_effects) ->
    Type_ n = "agent-turn-complete" ->
    sendFeishuCard w n cfg no_effects = (Returned (Some err), e) ->
    run_path (Exited 1,
              {| stdout := stdout e ++ ["Failed to send notification: " ++ err ++ nl];
                 sent := sent e |}).

End Paths.

(** [.card.elements] *)
Definition payload_elements (body : json) : option json :=
  and_then (member "card" body) (member "elements").

(** * Proofs *)

Lemma b2z_range c : 0 <= b2z c < 256.
Proof.
  unfold b2z. pose proof (N_ascii_bounded c). lia.
Qed.

Lemma b2z_byte_of z : b2z (byte_of z) = z mod 256.
Proof.
  unfold b2z, byte_of.
  assert (0 <= z mod 256 < 256) by (apply Z.mod_pos_bound; lia).
  rewrite N_ascii_embedding by lia. lia.
Qed.

Lemma byte_of_b2z c : byte_of (b2z c) = c.
Proof.
  unfold byte_of. pose proof (b2z_range c).
  rewrite Z.mod_small by lia. unfold b2z.
  rewrite N2Z.id. apply ascii_N_embedding.
Qed.

Lemma lor_add_disjoint x y n :
  0 <= n -> 0 <= y < 2 ^ n -> x mod 2 ^ n = 0 -> Z.lor x y = x + y.
Proof.
  intros Hn Hy Hx.
  assert (Hland : Z.land x y = 0).
  { apply Z.bits_inj'. intros i Hi.
    rewrite Z.land_spec, Z.bits_0.
    destruct (Z.lt_ge_cases i n) as [Hlt | Hge].
    - replace x with (x / 2 ^ n * 2 ^ n).
      + rewrite Z.mul_pow2_bits_low by lia. reflexivity.
      + pose proof (Z.div_mod x (2 ^ n)). lia.
    - rewrite <- (Z.mod_small y (2 ^ n)) by lia.
      rewrite Z.mod_pow2_bits_high by lia. apply andb_false_r. }
  rewrite <- Z.lxor_lor by exact Hland.
  symmetry. apply Z.add_nocarry_lxor. exact Hland.
Qed.

Lemma land_ones_mod x n m :
  0 <= n -> m = Z.ones n -> Z.land x m = x mod 2 ^ n.
Proof. intros Hn ->. apply Z.land_ones. exact Hn. Qed.

Lemma land_maskx x : Z.land x utf8.maskx = x mod 64.
Proof. apply (land_ones_mod x 6); [lia | reflexivity]. Qed.
Lemma land_mask2 x : Z.land x utf8.mask2 = x mod 32.
Proof. apply (land_ones_mod x 5); [lia | reflexivity]. Qed.
Lemma land_mask3 x : Z.land x utf8.mask3 = x mod 16.
Proof. apply (land_ones_mod x 4); [lia | reflexivity]. Qed.
Lemma land_mask4 x : Z.land x utf8.mask4 = x mod 8.
Proof. apply (land_ones_mod x 3); [lia | reflexivity]. Qed.

Lemma shiftl_6 x : Z.shiftl x 6 = x * 64.
Proof. apply Z.shiftl_mul_pow2. lia. Qed.
Lemma shiftl_12 x : Z.shiftl x 12 = x * 4096.
Proof. apply Z.shiftl_mul_pow2. lia. Qed.
Lemma shiftl_18 x : Z.shiftl x 18 = x * 262144.
Proof. apply Z.shiftl_mul_pow2. lia. Qed.
Lemma shiftr_6 x : Z.shiftr x 6 = x / 64.
Proof. apply Z.shiftr_div_pow2. lia. Qed.
Lemma shiftr_12 x : Z.shiftr x 12 = x / 4096.
Proof. apply Z.shiftr_div_pow2. lia. Qed.
Lemma shiftr_18 x : Z.shiftr x 18 = x / 262144.
Proof. apply Z.shiftr_div_pow2. lia. Qed.

Ltac Zify.zify_post_hook ::= Z.to_euclidean_division_equations.

Lemma lor_tx v : 0 <= v < 64 -> Z.lor utf8.tx v = 128 + v.
Proof. intros. apply (lor_add_disjoint _ _ 7); [lia | change (2^7) with 128; lia | reflexivity]. Qed.
Lemma lor_t2 v : 0 <= v < 32 -> Z.lor utf8.t2 v = 192 + v.
Proof. intros. apply (lor_add_disjoint _ _ 6); [lia | change (2^6) with 64; lia | reflexivity]. Qed.
Lemma lor_t3 v : 0 <= v < 16 -> Z.lor utf8.t3 v = 224 + v.
Proof. intros. apply (lor_add_disjoint _ _ 5); [lia | change (2^5) with 32; lia | reflexivity]. Qed.
Lemma lor_t4 v : 0 <= v < 8 -> Z.lor utf8.t4 v = 240 + v.
Proof. intros. apply (lor_add_disjoint _ _ 4); [lia | change (2^4) with 16; lia | reflexivity]. Qed.

(* continuation byte produced by the encoder *)
Lemma enc_cont x :
  b2z (byte_of (Z.lor utf8.tx (Z.land (b2z (byte_of x)) utf8.maskx))) = 128 + x mod 64.
Proof.
  rewrite b2z_byte_of, land_maskx, b2z_byte_of.
  rewrite lor_tx by lia. lia.
Qed.

Lemma join2 a b : 0 <= b < 64 -> Z.lor (a * 64) b = a * 64 + b.
Proof. intros. apply (lor_add_disjoint _ _ 6); [lia | change (2^6) with 64; lia | change (2^6) with 64; lia]. Qed.
Lemma join3 a b : 0 <= b < 4096 -> Z.lor (a * 4096) b = a * 4096 + b.
Proof. intros. apply (lor_add_disjoint _ _ 12); [lia | change (2^12) with 4096; lia | change (2^12) with 4096; lia]. Qed.
Lemma join4 a b : 0 <= b < 262144 -> Z.lor (a * 262144) b = a * 262144 + b.
Proof. intros. apply (lor_add_disjoint _ _ 18); [lia | change (2^18) with 262144; lia | change (2^18) with 262144; lia]. Qed.

(* the rune assembled by the decoder, as arithmetic *)
Lemma dec2 s0 s1 :
  Z.lor (Z.shiftl (Z.land s0 utf8.mask2) 6) (Z.land s1 utf8.maskx)
  = s0 mod 32 * 64 + s1 mod 64.
Proof.
  rewrite land_mask2, land_maskx, shiftl_6. apply join2. lia.
Qed.

Lemma dec3 s0 s1 s2 :
  Z.lor (Z.lor (Z.shiftl (Z.land s0 utf8.mask3) 12)
               (Z.shiftl (Z.land s1 utf8.maskx) 6))
        (Z.land s2 utf8.maskx)
  = s0 mod 16 * 4096 + s1 mod 64 * 64 + s2 mod 64.
Proof.
  rewrite land_mask3, !land_maskx, shiftl_6, shiftl_12.
  rewrite join3 by lia.
  replace (s0 mod 16 * 4096 + s1 mod 64 * 64) with ((s0 mod 16 * 64 + s1 mod 64) * 64) by lia.
  apply join2. lia.
Qed.

Lemma dec4 s0 s1 s2 s3 :
  Z.lor (Z.lor (Z.lor (Z.shiftl (Z.land s0 utf8.mask4) 18)
                      (Z.shiftl (Z.land s1 utf8.maskx) 12))
               (Z.shiftl (Z.land s2 utf8.maskx) 6))
        (Z.land s3 utf8.maskx)
  = s0 mod 8 * 262144 + s1 mod 64 * 4096 + s2 mod 64 * 64 + s3 mod 64.
Proof.
  rewrite land_mask4, !land_maskx, shiftl_6, shiftl_12, shiftl_18.
  rewrite join4 by lia.
  replace (s0 mod 8 * 262144 + s1 mod 64 * 4096)
    with ((s0 mod 8 * 64 + s1 mod 64) * 4096) by lia.
  rewrite join3 by lia.
  replace ((s0 mod 8 * 64 + s1 mod 64) * 4096 + s2 mod 64 * 64)
    with (((s0 mod 8 * 64 + s1 mod 64) * 64 + s2 mod 64) * 64) by lia.
  rewrite join2 by lia. lia.
Qed.

Lemma enc_cont_eq x :
  Z.lor utf8.tx (Z.land (b2z (byte_of x)) utf8.maskx) = 128 + x mod 64.
Proof.
  rewrite land_maskx, b2z_byte_of. rewrite lor_tx by lia. lia.
Qed.

Section EncodeCases.
Variable r : Z.

Lemma encoderune_1 :
  0 <= r <= utf8.rune1Max ->
  utf8.encoderune r = String (byte_of r) "".
Proof.
  unfold utf8.rune1Max. intros Hr. unfold utf8.encoderune.
  rewrite (Z.mod_small r) by lia.
  destruct (Z.leb_spec r utf8.rune1Max) as [_ | H]; [reflexivity | unfold utf8.rune1Max in H; lia].
Qed.

Lemma encoderune_2 :
  utf8.rune1Max < r <= utf8.rune2Max ->
  utf8.encoderune r =
    String (byte_of (192 + r / 64)) (String (byte_of (128 + r mod 64)) "").
Proof.
  unfold utf8.rune1Max, utf8.rune2Max. intros Hr. unfold utf8.encoderune.
  rewrite (Z.mod_small r) by lia.
  destruct (Z.leb_spec r utf8.rune1Max) as [H | _]; [unfold utf8.rune1Max in H; lia |].
  destruct (Z.leb_spec r utf8.rune2Max) as [_ | H]; [| unfold utf8.rune2Max in H; lia].
  rewrite enc_cont_eq, b2z_byte_of, shiftr_6.
  rewrite lor_t2 by lia.
  rewrite (Z.mod_small (r / 64)) by lia. reflexivity.
Qed.

Lemma encoderune_3 :
  utf8.rune2Max < r <= utf8.rune3Max ->
  ~ (utf8.surrogateMin <= r <= utf8.surrogateMax) ->
  utf8.encoderune r =
    String (byte_of (224 + r / 4096))
   (String (byte_of (128 + (r / 64) mod 64))
   (String (byte_of (128 + r mod 64)) "")).
Proof.
  unfold utf8.rune2Max, utf8.rune3Max, utf8.surrogateMin, utf8.surrogateMax.
  intros Hr Hs. unfold utf8.encoderune.
  rewrite (Z.mod_small r) by lia.
  destruct (Z.leb_spec r utf8.rune1Max) as [H | _]; [unfold utf8.rune1Max in H; lia |].
  destruct (Z.leb_spec r utf8.rune2Max) as [H | _]; [unfold utf8.rune2Max in H; lia |].
  destruct (Z.ltb_spec utf8.maxRune r) as [H | _]; [unfold utf8.maxRune in H; lia |].
  replace ((utf8.surrogateMin <=? r) && (r <=? utf8.surrogateMax)) with false
    by (symmetry; apply andb_false_iff;
        unfold utf8.surrogateMin, utf8.surrogateMax;
        rewrite Z.leb_gt, Z.leb_gt; lia).
  cbn [orb].
  destruct (Z.leb_spec r utf8.rune3Max) as [_ | H]; [| unfold utf8.rune3Max in H; lia].
  rewrite !enc_cont_eq, b2z_byte_of, shiftr_6, shiftr_12.
  rewrite lor_t3 by lia.
  rewrite (Z.mod_small (r / 4096)) by lia. reflexivity.
Qed.

Lemma encoderune_4 :
  utf8.rune3Max < r <= utf8.maxRune ->
  utf8.encoderune r =
    String (byte_of (240 + r / 262144))
   (String (byte_of (128 + (r / 4096) mod 64))
   (String (byte_of (128 + (r / 64) mod 64))
   (String (byte_of (128 + r mod 64)) ""))).
Proof.
  unfold utf8.rune3Max, utf8.maxRune.
  intros Hr. unfold utf8.encoderune.
  rewrite (Z.mod_small r) by lia.
  destruct (Z.leb_spec r utf8.rune1Max) as [H | _]; [unfold utf8.rune1Max in H; lia |].
  destruct (Z.leb_spec r utf8.rune2Max) as [H | _]; [unfold utf8.rune2Max in H; lia |].
  destruct (Z.ltb_spec utf8.maxRune r) as [H | _]; [unfold utf8.maxRune in H; lia |].
  destruct (Z.leb_spec utf8.surrogateMin r) as [_ | H]; [| unfold utf8.surrogateMin in H; lia].
  destruct (Z.leb_spec r utf8.surrogateMax) as [H | _]; [unfold utf8.surrogateMax in H; lia |].
  cbn [orb andb].
  destruct (Z.leb_spec r utf8.rune3Max) as [H | _]; [unfold utf8.rune3Max in H; lia |].
  rewrite !enc_cont_eq, b2z_byte_of, shiftr_6, shiftr_12, shiftr_18.
  rewrite lor_t4 by lia.
  rewrite (Z.mod_small (r / 262144)) by lia. reflexivity.
Qed.
End EncodeCases.

Ltac utf8_consts :=
  unfold utf8.rune1Max, utf8.rune2Max, utf8.rune3Max, utf8.maxRune,
    utf8.surrogateMin, utf8.surrogateMax, utf8.runeSelf, utf8.runeError,
    utf8.t2, utf8.t3, utf8.t4, utf8.t5, utf8.locb, utf8.hicb in *.

Ltac decide_cmp :=
  repeat match goal with
    | |- context [Z.leb ?a ?b] =>
        first [ rewrite (proj2 (Z.leb_le a b)) by lia
              | rewrite (proj2 (Z.leb_gt a b)) by lia ]
    | |- context [Z.ltb ?a ?b] =>
        first [ rewrite (proj2 (Z.ltb_lt a b)) by lia
              | rewrite (proj2 (Z.ltb_ge a b)) by lia ]
    end.

Ltac open_decoder :=
  cbn [append String.length];
  unfold utf8.range_step, utf8.decoderune, byte_at;
  cbn [String.get String.length Nat.ltb Nat.leb andb].

Lemma range_step_1 a t :
  0 <= a < 128 -> utf8.range_step (String (byte_of a) t) = (a, 1%nat).
Proof.
  intros Ha. open_decoder.
  rewrite b2z_byte_of, Z.mod_small by lia.
  utf8_consts. decide_cmp. reflexivity.
Qed.

Lemma range_step_2 a b t :
  2 <= a < 32 -> 0 <= b < 64 ->
  utf8.range_step (String (byte_of (192 + a)) (String (byte_of (128 + b)) t))
  = (a * 64 + b, 2%nat).
Proof.
  intros Ha Hb. open_decoder.
  rewrite dec2, !b2z_byte_of.
  rewrite (Z.mod_small (192 + a)), (Z.mod_small (128 + b)) by lia.
  replace ((192 + a) mod 32 * 64 + (128 + b) mod 64) with (a * 64 + b) by lia.
  unfold utf8.cont. utf8_consts. decide_cmp. reflexivity.
Qed.

Lemma range_step_3 a b c t :
  0 <= a < 16 -> 0 <= b < 64 -> 0 <= c < 64 ->
  utf8.rune2Max < a * 4096 + b * 64 + c ->
  ~ (utf8.surrogateMin <= a * 4096 + b * 64 + c <= utf8.surrogateMax) ->
  utf8.range_step (String (byte_of (224 + a)) (String (byte_of (128 + b))
                  (String (byte_of (128 + c)) t)))
  = (a * 4096 + b * 64 + c, 3%nat).
Proof.
  intros Ha Hb Hc Hlo Hs. open_decoder.
  rewrite dec3, !b2z_byte_of.
  rewrite (Z.mod_small (224 + a)), (Z.mod_small (128 + b)),
    (Z.mod_small (128 + c)) by lia.
  replace ((224 + a) mod 16 * 4096 + (128 + b) mod 64 * 64 + (128 + c) mod 64)
    with (a * 4096 + b * 64 + c) by lia.
  unfold utf8.cont. utf8_consts. decide_cmp. cbn [andb negb].
  destruct (Z.leb_spec 55296 (a * 4096 + b * 64 + c));
    destruct (Z.leb_spec (a * 4096 + b * 64 + c) 57343);
    try reflexivity; lia.
Qed.

Lemma range_step_4 a b c d t :
  0 <= a < 8 -> 0 <= b < 64 -> 0 <= c < 64 -> 0 <= d < 64 ->
  utf8.rune3Max < a * 262144 + b * 4096 + c * 64 + d <= utf8.maxRune ->
  utf8.range_step (String (byte_of (240 + a)) (String (byte_of (128 + b))
                  (String (byte_of (128 + c)) (String (byte_of (128 + d)) t))))
  = (a * 262144 + b * 4096 + c * 64 + d, 4%nat).
Proof.
  intros Ha Hb Hc Hd Hr. open_decoder.
  rewrite dec4, !b2z_byte_of.
  rewrite (Z.mod_small (240 + a)), (Z.mod_small (128 + b)),
    (Z.mod_small (128 + c)), (Z.mod_small (128 + d)) by lia.
  replace ((240 + a) mod 8 * 262144 + (128 + b) mod 64 * 4096
           + (128 + c) mod 64 * 64 + (128 + d) mod 64)
    with (a * 262144 + b * 4096 + c * 64 + d) by lia.
  unfold utf8.cont. utf8_consts. decide_cmp. reflexivity.
Qed.

(** Decoding the encoding of a scalar value gives it back, whatever follows. *)
Lemma range_step_encoderune r t :
  utf8.valid r ->
  utf8.range_step (utf8.encoderune r ++ t) = (r, String.length (utf8.encoderune r)).
Proof.
  intros [Hr Hs].
  destruct (Z_le_gt_dec r utf8.rune1Max) as [H1 | H1].
  { rewrite encoderune_1 by lia. cbn [append String.length].
    apply range_step_1. utf8_consts. lia. }
  destruct (Z_le_gt_dec r utf8.rune2Max) as [H2 | H2].
  { rewrite encoderune_2 by lia. cbn [append String.length].
    utf8_consts.
    rewrite range_step_2 by lia. f_equal. lia. }
  destruct (Z_le_gt_dec r utf8.rune3Max) as [H3 | H3].
  { rewrite encoderune_3 by lia. cbn [append String.length].
    assert (Hv : r / 4096 * 4096 + (r / 64) mod 64 * 64 + r mod 64 = r) by lia.
    rewrite range_step_3; rewrite ?Hv; utf8_consts; try lia.
    reflexivity. }
  { rewrite encoderune_4 by lia. cbn [append String.length].
    assert (Hv : r / 262144 * 262144 + (r / 4096) mod 64 * 4096
                 + (r / 64) mod 64 * 64 + r mod 64 = r) by lia.
    rewrite range_step_4; rewrite ?Hv; utf8_consts; try lia.
    reflexivity. }
Qed.

Lemma byte_at_range s i : 0 <= byte_at s i < 256.
Proof.
  unfold byte_at. destruct (String.get i s) as [c |].
  - apply b2z_range.
  - lia.
Qed.

Lemma valid_runeError : utf8.valid utf8.runeError.
Proof. unfold utf8.valid. utf8_consts. lia. Qed.

Ltac bool_hyps :=
  repeat match goal with
    | H : andb _ _ = true |- _ => apply andb_true_iff in H; destruct H
    | H : negb _ = true |- _ => apply negb_true_iff in H
    | H : andb _ _ = false |- _ => apply andb_false_iff in H; destruct H
    | H : Z.leb _ _ = true |- _ => apply Z.leb_le in H
    | H : Z.leb _ _ = false |- _ => apply Z.leb_gt in H
    | H : Z.ltb _ _ = true |- _ => apply Z.ltb_lt in H
    | H : Z.ltb _ _ = false |- _ => apply Z.ltb_ge in H
    end.

(** Whatever the bytes, the decoder yields a scalar value. *)
Lemma decoderune_valid s : utf8.valid (fst (utf8.decoderune s)).
Proof.
  unfold utf8.decoderune.
  pose proof (byte_at_range s 0) as R0. pose proof (byte_at_range s 1) as R1.
  pose proof (byte_at_range s 2) as R2. pose proof (byte_at_range s 3) as R3.
  generalize dependent (byte_at s 0). generalize dependent (byte_at s 1).
  generalize dependent (byte_at s 2). generalize dependent (byte_at s 3).
  intros s3 R3 s2 R2 s1 R1 s0 R0. cbv zeta.
  rewrite dec2, dec3, dec4.
  repeat match goal with
    | |- context [if ?c then _ else _] => destruct c eqn:?
    end; cbn [fst]; try apply valid_runeError;
    bool_hyps; unfold utf8.valid; utf8_consts; lia.
Qed.

Lemma range_step_valid s : utf8.valid (fst (utf8.range_step s)).
Proof.
  unfold utf8.range_step. pose proof (byte_at_range s 0).
  destruct (Z.ltb_spec (byte_at s 0) utf8.runeSelf).
  - cbn [fst]. unfold utf8.valid. utf8_consts. lia.
  - apply decoderune_valid.
Qed.

Lemma decoderune_width s :
  (1 <= snd (utf8.decoderune s) <= 4)%nat /\
  (snd (utf8.decoderune s) <= Nat.max 1 (String.length s))%nat.
Proof.
  unfold utf8.decoderune. cbv zeta.
  repeat match goal with
    | |- context [if ?c then _ else _] => destruct c eqn:?
    end; cbn [snd];
    repeat match goal with
      | H : andb _ _ = true |- _ => apply andb_true_iff in H; destruct H
      | H : Nat.ltb _ _ = true |- _ => apply Nat.ltb_lt in H
      end; lia.
Qed.

Lemma range_step_width s :
  (1 <= snd (utf8.range_step s) <= 4)%nat /\
  (snd (utf8.range_step s) <= Nat.max 1 (String.length s))%nat.
Proof.
  unfold utf8.range_step.
  destruct (byte_at s 0 <? utf8.runeSelf).
  - cbn [snd]. lia.
  - apply decoderune_width.
Qed.

Lemma length_drop n s : String.length (drop n s) = (String.length s - n)%nat.
Proof.
  revert s. induction n as [| n IH]; intros s.
  - cbn. lia.
  - destruct s as [| c s]; cbn; [reflexivity | apply IH].
Qed.

Lemma drop_app_length e t : drop (String.length e) (e ++ t) = t.
Proof. induction e as [| c e IH]; cbn; [reflexivity | exact IH]. Qed.

(** More fuel than the length of the string changes nothing. *)
Lemma range_runes_fuel fuel s :
  (String.length s <= fuel)%nat ->
  utf8.range_runes fuel s = utf8.range_runes (String.length s) s.
Proof.
  revert s. induction fuel as [fuel IH] using lt_wf_ind. intros s Hlen.
  destruct s as [| c s].
  - destruct fuel; reflexivity.
  - destruct fuel as [| fuel]; [cbn in Hlen; lia |].
    cbn [String.length utf8.range_runes].
    destruct (utf8.range_step (String c s)) as [r w] eqn:E.
    pose proof (range_step_width (String c s)) as [[Hw _] _].
    rewrite E in Hw. cbn [snd] in Hw.
    pose proof (length_drop w (String c s)) as Hd.
    cbn [String.length] in Hd, Hlen.
    f_equal.
    rewrite (IH fuel) by lia.
    rewrite (IH (String.length s)) by lia.
    reflexivity.
Qed.

(** The loop equation of [for _, r := range s]. *)
Lemma stringtoslicerune_eq c s :
  utf8.stringtoslicerune (String c s) =
    fst (utf8.range_step (String c s))
    :: utf8.stringtoslicerune (drop (snd (utf8.range_step (String c s))) (String c s)).
Proof.
  unfold utf8.stringtoslicerune at 1.
  cbn [String.length utf8.range_runes].
  destruct (utf8.range_step (String c s)) as [r w] eqn:E. cbn [fst snd].
  pose proof (range_step_width (String c s)) as [[Hw _] _].
  rewrite E in Hw. cbn [snd] in Hw.
  f_equal. unfold utf8.stringtoslicerune.
  apply range_runes_fuel.
  rewrite length_drop. cbn [String.length]. lia.
Qed.

Lemma stringtoslicerune_valid s : Forall utf8.valid (utf8.stringtoslicerune s).
Proof.
  remember (String.length s) as n eqn:Hn.
  revert s Hn. induction n as [n IH] using lt_wf_ind. intros s Hn.
  destruct s as [| c s]; [constructor |].
  rewrite stringtoslicerune_eq. constructor.
  - apply range_step_valid.
  - pose proof (range_step_width (String c s)) as [[Hw _] _].
    eapply IH; [| reflexivity].
    rewrite length_drop. subst n. cbn [String.length]. lia.
Qed.

Lemma encoderune_nonempty r : utf8.encoderune r <> "".
Proof.
  unfold utf8.encoderune. cbv zeta.
  repeat match goal with
    | |- context [if ?c then _ else _] => destruct c
    end; discriminate.
Qed.

Lemma append_assoc (a b c : string) : (a ++ b) ++ c = a ++ (b ++ c).
Proof. induction a as [| x a IH]; cbn; [reflexivity | now rewrite IH]. Qed.

(** Decoding an encoded slice of scalar values gives the slice back. *)
Lemma stringtoslicerune_encode rs t :
  Forall utf8.valid rs ->
  utf8.stringtoslicerune (utf8.slicerunetostring rs ++ t)
  = (rs ++ utf8.stringtoslicerune t)%list.
Proof.
  induction 1 as [| r rs Hr Hrs IH]; [reflexivity |].
  cbn [utf8.slicerunetostring]. rewrite append_assoc.
  pose proof (range_step_encoderune r (utf8.slicerunetostring rs ++ t) Hr) as E.
  destruct (utf8.encoderune r ++ utf8.slicerunetostring rs ++ t) as [| c u] eqn:Eu.
  - exfalso. destruct (utf8.encoderune r) eqn:Ee.
    + now apply encoderune_nonempty in Ee.
    + discriminate.
  - rewrite stringtoslicerune_eq, E. cbn [fst snd].
    rewrite <- Eu, drop_app_length, IH. reflexivity.
Qed.

(** *** [truncateRunes] *)

Lemma stringtoslicerune_nil s : utf8.stringtoslicerune s = [] -> s = "".
Proof.
  destruct s as [| c s]; [reflexivity |].
  rewrite stringtoslicerune_eq. discriminate.
Qed.

Lemma stringtoslicerune_of_slice rs :
  Forall utf8.valid rs ->
  utf8.stringtoslicerune (utf8.slicerunetostring rs) = rs.
Proof.
  intros H. pose proof (stringtoslicerune_encode rs "" H) as E.
  assert (A : forall s : string, s ++ "" = s)
    by (induction s as [| c s IH]; cbn; [reflexivity | now rewrite IH]).
  rewrite A in E. rewrite E. cbn. apply app_nil_r.
Qed.

Lemma Forall_firstn {A : Type} (P : A -> Prop) n (l : list A) :
  Forall P l -> Forall P (firstn n l).
Proof.
  intros H. revert n. induction H as [| x l Hx Hl IH]; intros [| n]; cbn;
    constructor; auto.
Qed.

Lemma slice_to_valid k s : Forall utf8.valid (slice_to k (utf8.stringtoslicerune s)).
Proof.
  unfold slice_to. apply Forall_firstn. apply stringtoslicerune_valid.
Qed.

Lemma length_slice_to k rs :
  0 <= k <= Z.of_nat (List.length rs) ->
  Z.of_nat (List.length (slice_to k rs)) = k.
Proof.
  intros Hk. unfold slice_to. rewrite firstn_length_le by lia. lia.
Qed.

(** The ellipsis marker is three code points long. *)
Lemma ellipsis_runes : utf8.stringtoslicerune "..." = [46; 46; 46].
Proof. reflexivity. Qed.

Section Truncation.
Variables (s : string) (L : Z).

Lemma truncateRunes_within : rune_count s <= L -> truncateRunes s L = s.
Proof.
  unfold rune_count. intros Hlen. unfold truncateRunes.
  destruct (Z.leb_spec L 0) as [H0 | H0].
  - symmetry. apply stringtoslicerune_nil.
    destruct (utf8.stringtoslicerune s); [reflexivity | cbn in Hlen; lia].
  - destruct (Z.leb_spec (Z.of_nat (List.length (utf8.stringtoslicerune s))) L);
      [reflexivity | lia].
Qed.

Lemma truncateRunes_cut :
  L <= 3 -> L < rune_count s ->
  truncateRunes s L
  = utf8.slicerunetostring (slice_to L (utf8.stringtoslicerune s)).
Proof.
  unfold rune_count. intros H3 Hlen. unfold truncateRunes.
  destruct (Z.leb_spec L 0) as [H0 | H0].
  - unfold slice_to. replace (Z.to_nat L) with O by lia. reflexivity.
  - destruct (Z.leb_spec (Z.of_nat (List.length (utf8.stringtoslicerune s))) L);
      [lia |].
    destruct (Z.leb_spec L 3); [reflexivity | lia].
Qed.

Lemma truncateRunes_cut_runes :
  L <= 3 -> L < rune_count s ->
  utf8.stringtoslicerune (truncateRunes s L)
  = slice_to L (utf8.stringtoslicerune s).
Proof.
  intros H3 Hlen. rewrite truncateRunes_cut by assumption.
  apply stringtoslicerune_of_slice. apply slice_to_valid.
Qed.

Lemma truncateRunes_marked :
  3 < L -> L < rune_count s ->
  truncateRunes s L
  = utf8.slicerunetostring (slice_to (L - 3) (utf8.stringtoslicerune s)) ++ "...".
Proof.
  unfold rune_count. intros HL Hlen. unfold truncateRunes.
  destruct (Z.leb_spec L 0); [lia |].
  destruct (Z.leb_spec (Z.of_nat (List.length (utf8.stringtoslicerune s))) L); [lia |].
  destruct (Z.leb_spec L 3); [lia | reflexivity].
Qed.

Lemma truncateRunes_marked_runes :
  3 < L -> L < rune_count s ->
  utf8.stringtoslicerune (truncateRunes s L)
  = (slice_to (L - 3) (utf8.stringtoslicerune s)
     ++ utf8.stringtoslicerune "...")%list.
Proof.
  intros HL Hlen. rewrite truncateRunes_marked by assumption.
  apply stringtoslicerune_encode. apply slice_to_valid.
Qed.

(** A truncated string has exactly [L] code points. *)
Lemma rune_count_truncated :
  0 <= L -> L < rune_count s -> rune_count (truncateRunes s L) = L.
Proof.
  intros H0 Hlen. unfold rune_count at 1.
  destruct (Z_le_gt_dec L 3) as [H3 | H3].
  - rewrite truncateRunes_cut_runes by assumption.
    apply length_slice_to. unfold rune_count in Hlen. lia.
  - rewrite truncateRunes_marked_runes by lia.
    rewrite length_app, Nat2Z.inj_add.
    rewrite length_slice_to by (unfold rune_count in Hlen; lia).
    rewrite ellipsis_runes. cbn. lia.
Qed.

(** [truncateRunes] never returns more than [L] code points. *)
Lemma truncateRunes_bound : 0 <= L -> rune_count (truncateRunes s L) <= L.
Proof.
  intros H0. destruct (Z_le_gt_dec (rune_count s) L) as [Hle | Hgt].
  - rewrite truncateRunes_within by exact Hle. exact Hle.
  - rewrite rune_count_truncated by lia. lia.
Qed.
End Truncation.

(** C1. For a limit [L > 3] and a string of more than [L] code points,
    [truncateRunes s L] is the encoding of the first [L - 3] code points of
    [s] followed by the marker ["..."]: its code points are those [L - 3]
    code points and the three of the marker, it has exactly [L] code points,
    and it ends with the marker. *)
Theorem truncateRunes_ellipsis (s : string) (L : Z) :
  3 < L ->
  L < rune_count s ->
  truncateRunes s L
  = utf8.slicerunetostring (slice_to (L - 3) (utf8.stringtoslicerune s)) ++ "..."
  /\ utf8.stringtoslicerune (truncateRunes s L)
     = (slice_to (L - 3) (utf8.stringtoslicerune s)
        ++ utf8.stringtoslicerune "...")%list
  /\ rune_count "..." = 3
  /\ rune_count (truncateRunes s L) = L
  /\ HasSuffix (truncateRunes s L) "...".
Proof.
  intros HL Hlen. repeat split.
  - apply truncateRunes_marked; assumption.
  - apply truncateRunes_marked_runes; assumption.
  - apply rune_count_truncated; lia.
  - rewrite truncateRunes_marked by assumption. eexists. reflexivity.
Qed.

Lemma truncateRunes_ellipsis_witness :
  truncateRunes "hello, world" 8 = "hello..."
  /\ rune_count (truncateRunes "hello, world" 8) = 8.
Proof.
  destruct (truncateRunes_ellipsis "hello, world" 8) as (E & _ & _ & C & _).
  - lia.
  - vm_compute. reflexivity.
  - split; [exact E | exact C].
Defined.

(** C2. A string of at most [L] code points is returned unchanged.  With
    [L <= 3], a string of more than [L] code points is cut to the encoding of
    its first [L] code points (none when [L <= 0]) and nothing is appended:
    the code points of the result are exactly those, [L] of them when
    [0 <= L]. *)
Theorem truncateRunes_unchanged_or_hard_cut (s : string) (L : Z) :
  (rune_count s <= L -> truncateRunes s L = s)
  /\ (L <= 3 -> L < rune_count s ->
      truncateRunes s L
      = utf8.slicerunetostring (slice_to L (utf8.stringtoslicerune s))
      /\ utf8.stringtoslicerune (truncateRunes s L)
         = slice_to L (utf8.stringtoslicerune s)
      /\ (0 <= L -> rune_count (truncateRunes s L) = L)).
Proof.
  split.
  - apply truncateRunes_within.
  - intros H3 Hlen. repeat split.
    + apply truncateRunes_cut; assumption.
    + apply truncateRunes_cut_runes; assumption.
    + intros H0. apply rune_count_truncated; assumption.
Qed.

Lemma truncateRunes_unchanged_or_hard_cut_witness :
  truncateRunes "hi" 3 = "hi"
  /\ truncateRunes "hello" 3 = "hel"
  /\ rune_count (truncateRunes "hello" 3) = 3.
Proof.
  destruct (truncateRunes_unchanged_or_hard_cut "hi" 3) as [U _].
  destruct (truncateRunes_unchanged_or_hard_cut "hello" 3) as [_ H].
  split.
  - apply U. vm_compute. discriminate.
  - destruct H as (E & _ & C).
    + lia.
    + vm_compute. reflexivity.
    + split; [exact E | apply C; lia].
Defined.

(** *** Strings *)

Lemma append_nil_r (s : string) : s ++ "" = s.
Proof. induction s as [| c s IH]; cbn; [reflexivity | now rewrite IH]. Qed.

Lemma length_append (a b : string) :
  String.length (a ++ b) = (String.length a + String.length b)%nat.
Proof. induction a as [| c a IH]; cbn; [reflexivity | now rewrite IH]. Qed.

Lemma substring_0_length (s : string) : String.substring 0 (String.length s) s = s.
Proof. induction s as [| c s IH]; cbn; [reflexivity | now rewrite IH]. Qed.

Lemma substring_0_0 (s : string) : String.substring 0 0 s = "".
Proof. destruct s; reflexivity. Qed.

Lemma length_string_of_list_ascii l :
  String.length (string_of_list_ascii l) = List.length l.
Proof. induction l as [| c l IH]; cbn; [reflexivity | now rewrite IH]. Qed.

(** *** SHA-256 and HMAC *)

Lemma length_make n : String.length (hmac.make n) = n.
Proof.
  unfold hmac.make. rewrite length_string_of_list_ascii. apply repeat_length.
Qed.

Lemma drop_make k n : drop k (hmac.make n) = hmac.make (n - k).
Proof.
  unfold hmac.make. revert n. induction k as [| k IH]; intros n.
  - cbn. now rewrite Nat.sub_0_r.
  - destruct n as [| n]; cbn; [reflexivity | apply IH].
Qed.

(** Copying a key of at most [n] bytes into [n] zero bytes fills it up with
    zeros. *)
Lemma copy_make n key :
  (String.length key <= n)%nat ->
  hmac.copy (hmac.make n) key = key ++ hmac.make (n - String.length key).
Proof.
  intros Hlen. unfold hmac.copy. rewrite length_make.
  rewrite Nat.min_r by exact Hlen.
  rewrite substring_0_length, drop_make. reflexivity.
Qed.

Lemma length_be_bytes k x : List.length (sha256.be_bytes k x) = k.
Proof. induction k as [| k IH]; cbn; [reflexivity | now rewrite IH]. Qed.

Lemma length_block hs p : List.length (sha256.block hs p) = 8%nat.
Proof.
  unfold sha256.block.
  destruct (fold_left sha256.round _ _) as [[[[[[[a b] c] d] e] f] g] h].
  reflexivity.
Qed.

Lemma length_blocks fuel hs p :
  List.length hs = 8%nat -> List.length (sha256.blocks fuel hs p) = 8%nat.
Proof.
  revert hs p. induction fuel as [| fuel IH]; intros hs p Hhs; cbn [sha256.blocks].
  - exact Hhs.
  - destruct (sha256.BlockSize <=? List.length p)%nat.
    + apply IH. apply length_block.
    + exact Hhs.
Qed.

Lemma length_flat_map_be_bytes l :
  List.length (flat_map (sha256.be_bytes 4) l) = (4 * List.length l)%nat.
Proof.
  induction l as [| x l IH]; [reflexivity |].
  cbn [flat_map]. rewrite length_app, length_be_bytes, IH. cbn [List.length]. lia.
Qed.

(** A SHA-256 digest has 32 bytes. *)
Lemma length_Sum256 data : String.length (sha256.Sum256 data) = 32%nat.
Proof.
  unfold sha256.Sum256, string_of_bytes, sha256.checkSum.
  rewrite length_string_of_list_ascii, length_map, length_flat_map_be_bytes.
  rewrite length_blocks by reflexivity. reflexivity.
Qed.

(** Writing a message to a fresh [hmac.New(sha256.New, key)] and taking the
    sum computes the keyed hash of RFC 2104. *)
Lemma hmac_sha256_spec key message :
  hmac.hmac_Sum (fst (hmac.hmac_Write (hmac.New sha256_New key) message)) ""
  = spec_HMAC_SHA256 key message.
Proof.
  unfold hmac.hmac_Sum, hmac.hmac_Write, hmac.New, spec_HMAC_SHA256.
  cbn [hash_BlockSize sha256_Hash hash_Write hash_Sum hash_Reset fst written sha256_New].
  change sha256.BlockSize with 64%nat.
  assert (Hk : (String.length
                  (if (64 <? String.length key)%nat then sha256.Sum256 key else key)
                <= 64)%nat).
  { destruct (Nat.ltb_spec 64 (String.length key)); [rewrite length_Sum256 |]; lia. }
  destruct (64 <? String.length key)%nat;
    cbn [fst snd hmac.inner hmac.outer hmac.opad hmac.ipad written
           String.length append drop];
    rewrite substring_0_0; cbn [append];
    rewrite copy_make by exact Hk; reflexivity.
Qed.

(** [h.Write] never fails, so [GenSign] never returns an error. *)
Lemma GenSign_eq secret ts :
  GenSign secret ts = (spec_signature secret ts, None).
Proof.
  unfold GenSign, spec_signature.
  rewrite <- hmac_sha256_spec.
  unfold hmac.hmac_Write. cbn [hash_Write sha256_Hash fst]. reflexivity.
Qed.

(** *** The program *)

Section ProgramFacts.
Context {lib : Library}.
Variable w : World.

(** Signing cannot fail: the fields are empty without a secret and are the
    decimal timestamp and the signature with one. *)
Lemma signature_fields_eq cfg :
  signature_fields w cfg
  = Ok (if String.eqb (Secret cfg) "" then ("", "")
        else (FormatInt (now_Unix w), spec_signature (Secret cfg) (now_Unix w))).
Proof.
  unfold signature_fields.
  destruct (String.eqb (Secret cfg) ""); cbn [negb]; [reflexivity |].
  rewrite GenSign_eq. reflexivity.
Qed.

(** What [sendFeishuCard] does: nothing is printed; unless [http.NewRequest]
    fails, exactly one request goes out, and its answer decides the result. *)
Lemma sendFeishuCard_eq n cfg t s e :
  signature_fields w cfg = Ok (t, s) ->
  sendFeishuCard w n cfg e
  = match http_NewRequest_error "POST" (WebhookURL cfg) with
    | Some err => (Returned (Some err), e)
    | None =>
        let req := post_request cfg (marshal_FeishuCardMsg (cardMsg w n t s)) in
        (Returned
           match webhook w req with
           | Err err => Some err
           | Ok resp =>
               match resp_Body resp with
               | Err err => Some err
               | Ok bodyBytes => check_response (resp_StatusCode resp) bodyBytes
               end
           end,
         {| stdout := stdout e; sent := sent e ++ [req] |})
    end.
Proof.
  intros Hs. unfold sendFeishuCard. rewrite Hs.
  destruct (http_NewRequest_error "POST" (WebhookURL cfg)); [reflexivity |].
  unfold bind, client_Do. cbv zeta.
  destruct (webhook w _) as [resp | err]; [| reflexivity].
  destruct (resp_Body resp); reflexivity.
Qed.

(** [startup] prints only on its way out. *)
Lemma startup_returned e p e' :
  startup w e = (Returned p, e') ->
  e' = e
  /\ List.length (os_Args w) = 2%nat
  /\ loadConfig w = (fst p, None)
  /\ json_Unmarshal_CodexNotification (nth 1 (os_Args w) "") = Ok (snd p).
Proof.
  unfold startup.
  destruct (Nat.eqb_spec (List.length (os_Args w)) 2) as [Hargs | Hargs];
    cbn [negb]; [| discriminate].
  destruct (loadConfig w) as [cfg [err |]] eqn:Hcfg; [discriminate |].
  destruct (json_Unmarshal_CodexNotification _) as [n | err] eqn:Hn;
    [| discriminate].
  unfold ret. intros H. injection H as <- <-. auto.
Qed.

Lemma startup_ok cfg n e :
  List.length (os_Args w) = 2%nat ->
  loadConfig w = (cfg, None) ->
  json_Unmarshal_CodexNotification (nth 1 (os_Args w) "") = Ok n ->
  startup w e = (Returned (cfg, n), e).
Proof.
  intros Hargs Hcfg Hn. unfold startup.
  rewrite Hargs, Hcfg, Hn. reflexivity.
Qed.

Lemma run_eq p e :
  startup w no_effects = (Returned p, e) ->
  run w = dispatch w (fst p) (snd p) no_effects.
Proof.
  intros H. destruct (startup_returned _ _ _ H) as [-> _].
  unfold run, main, bind. rewrite H. reflexivity.
Qed.

(** A request that a run sends is the card of the parsed notification. *)
Lemma run_sent req :
  In req (sent (snd (run w))) ->
  exists cfg n t s,
    startup w no_effects = (Returned (cfg, n), no_effects)
    /\ Type_ n = "agent-turn-complete"
    /\ signature_fields w cfg = Ok (t, s)
    /\ req = post_request cfg (marshal_FeishuCardMsg (cardMsg w n t s)).
Proof.
  unfold run, main, bind.
  destruct (startup w no_effects) as [[[cfg n] | code] e] eqn:Hs.
  - destruct (startup_returned _ _ _ Hs) as [-> _]. cbn [fst snd].
    unfold dispatch.
    destruct (String.eqb_spec (Type_ n) "agent-turn-complete") as [Ht | Ht];
      [| intros []].
    pose proof (signature_fields_eq cfg) as Hf.
    destruct (if String.eqb (Secret cfg) "" then _ else _) as [t s] in Hf.
    unfold bind. rewrite (sendFeishuCard_eq n cfg t s _ Hf).
    destruct (http_NewRequest_error "POST" (WebhookURL cfg)).
    + intros [].
    + cbv zeta.
      match goal with
      | |- context [Returned ?r] => destruct r
      end; cbn; (intros [<- | []]); exists cfg, n, t, s; auto.
  - unfold startup in Hs.
    destruct (negb _) in Hs.
    + unfold bind, fmt_Print, os_Exit in Hs. injection Hs as _ <-. intros [].
    + destruct (loadConfig w) as [cfg' [err |]].
      * unfold bind, fmt_Print, os_Exit in Hs. injection Hs as _ <-. intros [].
      * destruct (json_Unmarshal_CodexNotification _).
        -- discriminate.
        -- unfold bind, fmt_Print, os_Exit in Hs. injection Hs as _ <-.
           intros [].
Qed.
End ProgramFacts.

Lemma FormatInt_nonempty i : FormatInt i <> "".
Proof.
  unfold FormatInt. destruct (Z.to_int i) as [d | d]; cbn.
  - destruct d; discriminate.
  - discriminate.
Qed.

Lemma encode_nonempty b l : base64.encode (b :: l) <> "".
Proof. destruct l as [| b1 [| b2 l]]; discriminate. Qed.

Lemma spec_signature_nonempty secret ts : spec_signature secret ts <> "".
Proof.
  unfold spec_signature, base64.EncodeToString, spec_HMAC_SHA256.
  match goal with
  | |- context [bytes_of_string (sha256.Sum256 ?x)] =>
      pose proof (length_Sum256 x) as Hlen;
      destruct (sha256.Sum256 x) as [| c s]
  end.
  - discriminate.
  - cbn. apply encode_nonempty.
Qed.

Ltac contains_by before after :=
  exists before, after;
  repeat rewrite append_assoc; repeat rewrite append_nil_r; reflexivity.

(** The members of the message object, by key. *)
Lemma member_timestamp m :
  member "timestamp" (marshal_FeishuCardMsg m)
  = if String.eqb (msg_Timestamp m) "" then None
    else Some (JString (msg_Timestamp m)).
Proof.
  unfold marshal_FeishuCardMsg, omitempty_string. cbn [member].
  destruct (String.eqb (msg_Timestamp m) ""), (String.eqb (msg_Sign m) "");
    reflexivity.
Qed.

Lemma member_sign m :
  member "sign" (marshal_FeishuCardMsg m)
  = if String.eqb (msg_Sign m) "" then None else Some (JString (msg_Sign m)).
Proof.
  unfold marshal_FeishuCardMsg, omitempty_string. cbn [member].
  destruct (String.eqb (msg_Timestamp m) ""), (String.eqb (msg_Sign m) "");
    reflexivity.
Qed.

Lemma member_card m :
  member "card" (marshal_FeishuCardMsg m) = Some (marshal_FeishuCard (msg_Card m)).
Proof.
  unfold marshal_FeishuCardMsg, omitempty_string. cbn [member].
  destruct (String.eqb (msg_Timestamp m) ""), (String.eqb (msg_Sign m) "");
    reflexivity.
Qed.

Section Claims.
Context {lib : Library}.
Variable w : World.

Lemma unset_is_blank key :
  environ w key = None -> strings_TrimSpace (os_Getenv w key) = "".
Proof.
  intros H. unfold os_Getenv. rewrite H. apply strings_TrimSpace_empty.
Qed.

Lemma startup_unique p e p' e' :
  startup w no_effects = (Returned p, e) ->
  startup w no_effects = (Returned p', e') ->
  p' = p.
Proof. intros H H'. rewrite H in H'. now injection H'. Qed.

(** C3. When the run has parsed a notification whose type is not
    ["agent-turn-complete"], it sends no HTTP request, prints nothing and
    returns from [main], that is, exits with code 0. *)
Theorem other_types_are_skipped cfg n e :
  startup w no_effects = (Returned (cfg, n), e) ->
  Type_ n <> "agent-turn-complete" ->
  run w = (Returned tt, no_effects)
  /\ sent (snd (run w)) = []
  /\ stdout (snd (run w)) = []
  /\ exit_code w = 0.
Proof.
  intros Hs Ht.
  assert (E : run w = (Returned tt, no_effects)).
  { rewrite (run_eq w _ _ Hs). cbn [fst snd]. unfold dispatch.
    destruct (String.eqb_spec (Type_ n) "agent-turn-complete");
      [contradiction | reflexivity]. }
  unfold exit_code. rewrite E. auto.
Qed.
End Claims.

Lemma other_types_are_skipped_witness :
  @run Sample.library
    (Sample.world Sample.other_json Sample.hook None Sample.accepted)
  = (Returned tt, no_effects).
Proof.
  eapply (@other_types_are_skipped Sample.library _ _ Sample.other).
  - vm_compute. reflexivity.
  - vm_compute. discriminate.
Defined.

Section Signing.
Context {lib : Library}.
Variable w : World.

(** C4. The signature [GenSign] returns is the base64 encoding of
    HMAC-SHA256 of the empty message under the key made of the decimal
    timestamp, a newline and the secret, and no error.  It is a function of
    the secret and the timestamp alone: whichever notification a run
    delivers, the [sign] member of the payload it sends under a non-empty
    secret is that value at the time of signing. *)
Theorem signature_matches_spec (secret : string) (ts : Z) :
  GenSign secret ts = (spec_signature secret ts, None)
  /\ (secret <> "" ->
      now_Unix w = ts ->
      forall (n : CodexNotification) (cfg : FeishuConfig) (req : Request),
        Secret cfg = secret ->
        In req (sent (snd (sendFeishuCard w n cfg no_effects))) ->
        member "sign" (req_Body req) = Some (JString (spec_signature secret ts))).
Proof.
  split; [apply GenSign_eq |].
  intros Hne Hts n cfg req Hsec Hin.
  pose proof (signature_fields_eq w cfg) as Hf.
  rewrite Hsec in Hf. rewrite (proj2 (String.eqb_neq _ _) Hne) in Hf.
  rewrite (sendFeishuCard_eq w n cfg _ _ _ Hf) in Hin.
  destruct (http_NewRequest_error "POST" (WebhookURL cfg)); [destruct Hin |].
  cbv zeta in Hin. cbn [snd sent no_effects app In] in Hin.
  destruct Hin as [<- | []].
  cbn [post_request req_Body]. rewrite member_sign.
  cbn [cardMsg msg_Sign]. rewrite Hts.
  rewrite (proj2 (String.eqb_neq _ _) (spec_signature_nonempty secret ts)).
  reflexivity.
Qed.

(** C5. The payload of a request that a run sends has neither a
    [timestamp] nor a [sign] member when the secret variable is unset or
    blank after trimming, and has both, holding the decimal timestamp and
    the signature, when the trimmed secret is not empty. *)
Theorem auth_members_follow_secret (req : Request) :
  In req (sent (snd (run w))) ->
  let secret := strings_TrimSpace (os_Getenv w "FEISHU_SECRET") in
  (environ w "FEISHU_SECRET" = None \/ secret = "" ->
   member "timestamp" (req_Body req) = None
   /\ member "sign" (req_Body req) = None)
  /\ (secret <> "" ->
      member "timestamp" (req_Body req)
      = Some (JString (FormatInt (now_Unix w)))
      /\ member "sign" (req_Body req)
         = Some (JString (spec_signature secret (now_Unix w)))).
Proof.
  intros Hin secret.
  destruct (run_sent w req Hin) as (cfg & n & t & s & Hs & _ & Hf & ->).
  destruct (startup_returned w _ _ _ Hs) as (_ & _ & Hcfg & _).
  cbn [fst] in Hcfg.
  assert (Hsec : Secret cfg = secret).
  { unfold loadConfig in Hcfg.
    destruct (String.eqb _ "") in Hcfg; [discriminate |].
    injection Hcfg as <-. reflexivity. }
  rewrite signature_fields_eq, Hsec in Hf.
  cbn [post_request req_Body]. rewrite member_timestamp, member_sign.
  cbn [cardMsg msg_Timestamp msg_Sign].
  split.
  - intros Hblank.
    assert (Hempty : secret = "").
    { destruct Hblank as [Hunset | H]; [| exact H].
      apply unset_is_blank. exact Hunset. }
    rewrite Hempty in Hf. cbn in Hf. injection Hf as <- <-. split; reflexivity.
  - intros Hne. rewrite (proj2 (String.eqb_neq _ _) Hne) in Hf.
    injection Hf as <- <-.
    rewrite (proj2 (String.eqb_neq _ _) (FormatInt_nonempty _)).
    rewrite (proj2 (String.eqb_neq _ _) (spec_signature_nonempty _ _)).
    split; reflexivity.
Qed.
End Signing.

Lemma signature_matches_spec_witness :
  GenSign "s3cret" 1700000000 = (spec_signature "s3cret" 1700000000, None)
  /\ exists req,
      In req (sent (snd (@sendFeishuCard Sample.library
                           (Sample.world Sample.demo_json Sample.hook
                              (Some "s3cret") Sample.accepted)
                           Sample.demo
                           {| WebhookURL := "https://example.invalid/hook";
                              Secret := "s3cret" |}
                           no_effects)))
      /\ member "sign" (req_Body req)
         = Some (JString (spec_signature "s3cret" 1700000000)).
Proof.
  pose proof (@signature_matches_spec Sample.library
                (Sample.world Sample.demo_json Sample.hook (Some "s3cret")
                   Sample.accepted) "s3cret" 1700000000) as [G P].
  split; [exact G |].
  eexists. split.
  - vm_compute. left. reflexivity.
  - refine (P _ _ Sample.demo
              {| WebhookURL := "https://example.invalid/hook";
                 Secret := "s3cret" |} _ _ _).
    + discriminate.
    + reflexivity.
    + reflexivity.
    + vm_compute. left. reflexivity.
Defined.

Lemma auth_members_follow_secret_witness :
  exists req,
    In req (sent (snd (@run Sample.library
                         (Sample.world Sample.demo_json Sample.hook None
                            Sample.accepted))))
    /\ member "timestamp" (req_Body req) = None
    /\ member "sign" (req_Body req) = None.
Proof.
  eexists. split.
  - vm_compute. left. reflexivity.
  - eapply (proj1 (@auth_members_follow_secret Sample.library
                     (Sample.world Sample.demo_json Sample.hook None
                        Sample.accepted) _ _)).
    left. reflexivity.
    Unshelve. vm_compute. left. reflexivity.
Defined.

Section Delivery.
Context {lib : Library}.
Variable w : World.

Lemma check_response_success statusCode bodyBytes :
  check_response statusCode bodyBytes = None
  <-> statusCode = 200
      /\ exists r, json_Unmarshal_FeishuResponse bodyBytes = Ok r
                   /\ Code r = 0 /\ StatusCode r = 0.
Proof.
  unfold check_response, http_StatusOK.
  destruct (Z.eqb_spec statusCode 200) as [H200 | H200]; cbn [negb].
  - destruct (json_Unmarshal_FeishuResponse bodyBytes) as [r | err].
    + split.
      * intros H. split; [exact H200 |]. exists r.
        destruct (Z.eqb_spec (Code r) 0) as [Hc | Hc];
          destruct (Z.eqb_spec (StatusCode r) 0) as [Hs | Hs];
          cbn [negb orb] in H; try discriminate. auto.
      * intros (_ & r' & Hr & Hc & Hs). injection Hr as <-.
        rewrite Hc, Hs. reflexivity.
    + split; [discriminate |]. intros (_ & r & Hr & _). discriminate.
  - split; [discriminate |]. intros [H _]. contradiction.
Qed.

(** C6. For a response received from the webhook, [sendFeishuCard] returns
    no error exactly when the status is 200, the body was read and decodes,
    and both [code] and [StatusCode] are zero; the process then exits with
    code 0, and with code 1 otherwise.  When one of the two codes is not
    zero the error shows both codes and both messages; with a status other
    than 200 it shows the status and the raw body; with a body that does
    not decode it shows the raw body. *)
Theorem delivery_succeeds_iff (n : CodexNotification) (cfg : FeishuConfig)
  (t s : string) (resp : Response) :
  signature_fields w cfg = Ok (t, s) ->
  http_NewRequest_error "POST" (WebhookURL cfg) = None ->
  webhook w (post_request cfg (marshal_FeishuCardMsg (cardMsg w n t s))) = Ok resp ->
  let returned := fst (sendFeishuCard w n cfg no_effects) in
  (returned = Returned None
   <-> resp_StatusCode resp = 200
       /\ exists bodyBytes r,
           resp_Body resp = Ok bodyBytes
           /\ json_Unmarshal_FeishuResponse bodyBytes = Ok r
           /\ Code r = 0 /\ StatusCode r = 0)
  /\ (forall bodyBytes r,
        resp_StatusCode resp = 200 ->
        resp_Body resp = Ok bodyBytes ->
        json_Unmarshal_FeishuResponse bodyBytes = Ok r ->
        Code r <> 0 \/ StatusCode r <> 0 ->
        exists err,
          returned = Returned (Some err)
          /\ Contains err ("code=" ++ FormatInt (Code r))
          /\ Contains err ("msg=" ++ Msg r)
          /\ Contains err ("statusCode=" ++ FormatInt (StatusCode r))
          /\ Contains err ("statusMessage=" ++ StatusMessage r))
  /\ (forall bodyBytes,
        resp_StatusCode resp <> 200 ->
        resp_Body resp = Ok bodyBytes ->
        exists err,
          returned = Returned (Some err)
          /\ Contains err (FormatInt (resp_StatusCode resp))
          /\ Contains err bodyBytes)
  /\ (forall bodyBytes e,
        resp_StatusCode resp = 200 ->
        resp_Body resp = Ok bodyBytes ->
        json_Unmarshal_FeishuResponse bodyBytes = Err e ->
        exists err,
          returned = Returned (Some err) /\ Contains err bodyBytes)
  /\ (startup w no_effects = (Returned (cfg, n), no_effects) ->
      Type_ n = "agent-turn-complete" ->
      (returned = Returned None -> exit_code w = 0)
      /\ (returned <> Returned None -> exit_code w = 1)).
Proof.
  intros Hf Hreq Hresp returned.
  assert (E : sendFeishuCard w n cfg no_effects
              = (Returned
                   match resp_Body resp with
                   | Err err => Some err
                   | Ok bodyBytes => check_response (resp_StatusCode resp) bodyBytes
                   end,
                 {| stdout := [];
                    sent := [post_request cfg
                               (marshal_FeishuCardMsg (cardMsg w n t s))] |})).
  { rewrite (sendFeishuCard_eq w n cfg t s _ Hf), Hreq. cbv zeta.
    rewrite Hresp. reflexivity. }
  assert (R : returned
              = Returned
                  match resp_Body resp with
                  | Err err => Some err
                  | Ok bodyBytes => check_response (resp_StatusCode resp) bodyBytes
                  end).
  { unfold returned. rewrite E. reflexivity. }
  clearbody returned. subst returned.
  split; [| split; [| split; [| split]]].
  - split.
    + intros H. injection H as H.
      destruct (resp_Body resp) as [bodyBytes | err]; [| discriminate].
      apply check_response_success in H. destruct H as (H200 & r & Hr & Hc & Hs).
      split; [exact H200 |]. exists bodyBytes, r. auto.
    + intros (H200 & bodyBytes & r & Hb & Hr & Hc & Hs). rewrite Hb. f_equal.
      apply check_response_success. split; [exact H200 |]. exists r. auto.
  - intros bodyBytes r H200 Hb Hr Hnz. rewrite Hb.
    unfold check_response, http_StatusOK. rewrite H200, Hr. cbn [Z.eqb negb].
    assert (Hor : negb (Code r =? 0) || negb (StatusCode r =? 0) = true).
    { destruct Hnz as [H | H]; apply Z.eqb_neq in H; rewrite H;
        cbn [negb orb]; [reflexivity | apply orb_true_r]. }
    rewrite Hor. eexists. split; [reflexivity |].
    repeat split.
    + contains_by "feishu error "
        (" statusCode=" ++ FormatInt (StatusCode r) ++ " msg=" ++ Msg r
         ++ " statusMessage=" ++ StatusMessage r).
    + contains_by ("feishu error code=" ++ FormatInt (Code r) ++ " statusCode="
                   ++ FormatInt (StatusCode r) ++ " ")
        (" statusMessage=" ++ StatusMessage r).
    + contains_by ("feishu error code=" ++ FormatInt (Code r) ++ " ")
        (" msg=" ++ Msg r ++ " statusMessage=" ++ StatusMessage r).
    + contains_by ("feishu error code=" ++ FormatInt (Code r) ++ " statusCode="
                   ++ FormatInt (StatusCode r) ++ " msg=" ++ Msg r ++ " ") "".
  - intros bodyBytes H200 Hb. rewrite Hb.
    unfold check_response, http_StatusOK.
    rewrite (proj2 (Z.eqb_neq _ _) H200). cbn [negb].
    eexists. split; [reflexivity |]. split.
    + contains_by "status: " (", resp: " ++ bodyBytes).
    + contains_by ("status: " ++ FormatInt (resp_StatusCode resp) ++ ", resp: ") "".
  - intros bodyBytes e H200 Hb Hr. rewrite Hb.
    unfold check_response, http_StatusOK. rewrite H200, Hr. cbn [Z.eqb negb].
    eexists. split; [reflexivity |].
    contains_by ("decode feishu response: " ++ e ++ " (payload: ") ")".
  - intros Hs Ht.
    assert (Hrun : run w
                   = dispatch w cfg n no_effects) by apply (run_eq w _ _ Hs).
    unfold exit_code. rewrite Hrun. unfold dispatch.
    rewrite (proj2 (String.eqb_eq _ _) Ht). unfold bind. rewrite E.
    destruct (match resp_Body resp with
              | Ok bodyBytes => check_response (resp_StatusCode resp) bodyBytes
              | Err err => Some err
              end) as [err |].
    + split; [discriminate | reflexivity].
    + split; [reflexivity | intros H; now contradiction H].
Qed.
End Delivery.

Lemma delivery_succeeds_iff_witness :
  fst (@sendFeishuCard Sample.library
         (Sample.world Sample.demo_json Sample.hook None Sample.accepted)
         Sample.demo
         {| WebhookURL := "https://open.feishu.cn/open-apis/bot/v2/hook/demo";
            Secret := "" |} no_effects)
  = Returned None
  /\ @exit_code Sample.library
       (Sample.world Sample.demo_json Sample.hook None Sample.accepted) = 0.
Proof.
  pose proof (@delivery_succeeds_iff Sample.library
                (Sample.world Sample.demo_json Sample.hook None Sample.accepted)
                Sample.demo
                {| WebhookURL := "https://open.feishu.cn/open-apis/bot/v2/hook/demo";
                   Secret := "" |}
                "" ""
                {| resp_StatusCode := 200; resp_Body := Ok Sample.ok_body |}
                eq_refl eq_refl eq_refl) as (Hiff & _ & _ & _ & Hexit).
  assert (Hok : fst (@sendFeishuCard Sample.library
                       (Sample.world Sample.demo_json Sample.hook None Sample.accepted)
                       Sample.demo
                       {| WebhookURL := "https://open.feishu.cn/open-apis/bot/v2/hook/demo";
                          Secret := "" |} no_effects)
                = Returned None).
  { apply Hiff. split; [reflexivity |].
    exists Sample.ok_body,
      {| Code := 0; Msg := ""; StatusCode := 0; StatusMessage := "" |}.
    repeat split. }
  split; [exact Hok |].
  apply Hexit; [vm_compute; reflexivity | reflexivity | exact Hok].
Defined.

Section Configuration.
Context {lib : Library}.
Variable w : World.

Lemma loadConfig_blank :
  strings_TrimSpace (os_Getenv w "FEISHU_WEBHOOK_URL") = "" ->
  loadConfig w
  = ({| WebhookURL := ""; Secret := "" |}, Some "FEISHU_WEBHOOK_URL is not set").
Proof. intros H. unfold loadConfig. rewrite H. reflexivity. Qed.

Lemma run_blank_webhook :
  strings_TrimSpace (os_Getenv w "FEISHU_WEBHOOK_URL") = "" ->
  run w = (if (List.length (os_Args w) =? 2)%nat
           then config_error_run
           else usage_error_run).
Proof.
  intros H. unfold run, main, bind, startup.
  destruct (List.length (os_Args w) =? 2)%nat; cbn [negb].
  - rewrite (loadConfig_blank H). reflexivity.
  - reflexivity.
Qed.
End Configuration.

Section ConfigurationClaims.
Context {lib : Library}.
Variable w : World.

(** C7. When the webhook URL variable is unset or blank after trimming,
    [loadConfig] fails with the configuration error, and the process exits
    with code 1 without sending any request; with one argument the only
    output is the configuration error.  When the URL is not blank,
    [loadConfig] succeeds whatever the secret is, and an unset or blank
    secret gives the empty secret. *)
Theorem blank_webhook_is_config_error :
  (environ w "FEISHU_WEBHOOK_URL" = None
   \/ strings_TrimSpace (os_Getenv w "FEISHU_WEBHOOK_URL") = "" ->
   snd (loadConfig w) = Some "FEISHU_WEBHOOK_URL is not set"
   /\ exit_code w = 1
   /\ sent (snd (run w)) = []
   /\ (List.length (os_Args w) = 2%nat -> run w = config_error_run))
  /\ (strings_TrimSpace (os_Getenv w "FEISHU_WEBHOOK_URL") <> "" ->
      loadConfig w
      = ({| WebhookURL := strings_TrimSpace (os_Getenv w "FEISHU_WEBHOOK_URL");
            Secret := strings_TrimSpace (os_Getenv w "FEISHU_SECRET") |}, None)
      /\ (environ w "FEISHU_SECRET" = None
          \/ strings_TrimSpace (os_Getenv w "FEISHU_SECRET") = "" ->
          loadConfig w
          = ({| WebhookURL := strings_TrimSpace (os_Getenv w "FEISHU_WEBHOOK_URL");
                Secret := "" |}, None))).
Proof.
  split.
  - intros Hblank.
    assert (H : strings_TrimSpace (os_Getenv w "FEISHU_WEBHOOK_URL") = "").
    { destruct Hblank as [Hunset | H]; [| exact H].
      apply unset_is_blank. exact Hunset. }
    rewrite (loadConfig_blank w H).
    unfold exit_code. rewrite (run_blank_webhook w H).
    repeat split.
    + destruct (List.length (os_Args w) =? 2)%nat; reflexivity.
    + destruct (List.length (os_Args w) =? 2)%nat; reflexivity.
    + intros ->. reflexivity.
  - intros Hne.
    assert (E : loadConfig w
                = ({| WebhookURL := strings_TrimSpace (os_Getenv w "FEISHU_WEBHOOK_URL");
                      Secret := strings_TrimSpace (os_Getenv w "FEISHU_SECRET") |},
                   None)).
    { unfold loadConfig. rewrite (proj2 (String.eqb_neq _ _) Hne). reflexivity. }
    split; [exact E |].
    intros Hsecret. rewrite E.
    assert (H : strings_TrimSpace (os_Getenv w "FEISHU_SECRET") = "").
    { destruct Hsecret as [Hunset | H]; [| exact H].
      apply unset_is_blank. exact Hunset. }
    rewrite H. reflexivity.
Qed.

(** C10. The configuration comes first: with one argument and the webhook
    URL variable unset or blank, the run is the configuration error run
    (exit code 1), whatever [json.Unmarshal] would make of the argument, an
    error or a notification of any type: no notification is ever obtained
    from [startup]. *)
Theorem config_is_checked_before_parsing :
  List.length (os_Args w) = 2%nat ->
  environ w "FEISHU_WEBHOOK_URL" = None
  \/ strings_TrimSpace (os_Getenv w "FEISHU_WEBHOOK_URL") = "" ->
  run w = config_error_run
  /\ exit_code w = 1
  /\ (forall parsed e, startup w no_effects <> (Returned parsed, e))
  /\ (forall err,
        json_Unmarshal_CodexNotification (nth 1 (os_Args w) "") = Err err ->
        run w = config_error_run)
  /\ (forall n,
        json_Unmarshal_CodexNotification (nth 1 (os_Args w) "") = Ok n ->
        Type_ n <> "agent-turn-complete" ->
        run w = config_error_run).
Proof.
  intros Hargs Hblank.
  assert (H : strings_TrimSpace (os_Getenv w "FEISHU_WEBHOOK_URL") = "").
  { destruct Hblank as [Hunset | H]; [| exact H].
    apply unset_is_blank. exact Hunset. }
  assert (E : run w = config_error_run).
  { rewrite (run_blank_webhook w H), Hargs. reflexivity. }
  split; [exact E |]. split; [unfold exit_code; rewrite E; reflexivity |].
  split; [| split; intros; exact E].
  intros parsed e Hs. apply startup_returned in Hs.
  destruct Hs as (_ & _ & Hcfg & _).
  rewrite (loadConfig_blank w H) in Hcfg. discriminate.
Qed.
End ConfigurationClaims.

Lemma blank_webhook_is_config_error_witness :
  @run Sample.library
    (Sample.world Sample.demo_json (Some "  ") None Sample.accepted)
  = config_error_run
  /\ @loadConfig Sample.library
       (Sample.world Sample.demo_json Sample.hook None Sample.accepted)
     = ({| WebhookURL := "https://open.feishu.cn/open-apis/bot/v2/hook/demo";
           Secret := "" |}, None).
Proof.
  split.
  - apply (proj1 (@blank_webhook_is_config_error Sample.library
                    (Sample.world Sample.demo_json (Some "  ") None Sample.accepted))).
    + right. reflexivity.
    + reflexivity.
  - apply (proj2 (@blank_webhook_is_config_error Sample.library
                    (Sample.world Sample.demo_json Sample.hook None Sample.accepted))).
    + vm_compute. discriminate.
    + left. reflexivity.
Defined.

Lemma config_is_checked_before_parsing_witness :
  @run Sample.library (Sample.world Sample.other_json None None Sample.accepted)
  = config_error_run
  /\ @run Sample.library (Sample.world "{" None None Sample.accepted)
     = config_error_run.
Proof.
  split.
  - apply (@config_is_checked_before_parsing Sample.library
             (Sample.world Sample.other_json None None Sample.accepted)).
    + reflexivity.
    + left. reflexivity.
  - apply (@config_is_checked_before_parsing Sample.library
             (Sample.world "{" None None Sample.accepted)).
    + reflexivity.
    + left. reflexivity.
Defined.

Section Card.
Context {lib : Library}.
Variable w : World.

Lemma payload_title_cardMsg n t s :
  payload_title (marshal_FeishuCardMsg (cardMsg w n t s))
  = Some (JString ("🤖 Codex 任务完成: "
                   ++ truncateRunes
                        (match InputMessages n with
                         | m :: _ => m
                         | [] => "Unknown Task"
                         end) 30)).
Proof.
  unfold payload_title. rewrite member_card.
  destruct (InputMessages n) as [| m ms] eqn:Hm;
    unfold cardMsg; rewrite Hm; reflexivity.
Qed.

Lemma payload_elements_cardMsg n t s :
  let body := marshal_FeishuCardMsg (cardMsg w n t s) in
  let trimmed := strings_TrimSpace (LastAssistantMessage n) in
  let resultContent :=
    if String.eqb trimmed "" then "（无执行结果描述）" else trimmed in
  and_then (payload_element 0 body) element_tag = Some (JString "div")
  /\ and_then (payload_element 0 body) element_text
     = Some (JString ("**📝 输入指令:**" ++ nl
                      ++ strings_Join (InputMessages n) nl))
  /\ and_then (payload_element 1 body) element_tag = Some (JString "hr")
  /\ and_then (payload_element 2 body) element_tag = Some (JString "div")
  /\ and_then (payload_element 2 body) element_text
     = Some (JString ("**✅ 执行结果:**" ++ nl
                      ++ truncateRunes resultContent 500)).
Proof.
  cbv zeta. unfold payload_element. rewrite member_card.
  repeat split; reflexivity.
Qed.

(** The notification whose card a run sends is the one it parsed. *)
Lemma run_sent_parsed cfg n e req :
  startup w no_effects = (Returned (cfg, n), e) ->
  In req (sent (snd (run w))) ->
  exists t s, req_Body req = marshal_FeishuCardMsg (cardMsg w n t s).
Proof.
  intros Hs Hin.
  destruct (run_sent w req Hin) as (cfg' & n' & t & s & Hs' & _ & _ & ->).
  pose proof (startup_unique w _ _ _ _ Hs Hs') as Hp.
  injection Hp as -> ->. exists t, s. reflexivity.
Qed.

(** C8. In the card that a run sends, the elements are a text block, a
    divider and then the second text block; the content of that block is
    its label followed by the final assistant message, trimmed first,
    replaced by the placeholder if the trimmed text is empty, and then cut
    by [truncateRunes] to at most 500 code points. *)
Theorem result_block_is_trimmed_then_truncated cfg n e req :
  startup w no_effects = (Returned (cfg, n), e) ->
  In req (sent (snd (run w))) ->
  let trimmed := strings_TrimSpace (LastAssistantMessage n) in
  let resultContent :=
    if String.eqb trimmed "" then "（无执行结果描述）" else trimmed in
  and_then (payload_element 0 (req_Body req)) element_tag = Some (JString "div")
  /\ and_then (payload_element 1 (req_Body req)) element_tag = Some (JString "hr")
  /\ and_then (payload_element 2 (req_Body req)) element_tag = Some (JString "div")
  /\ and_then (payload_element 2 (req_Body req)) element_text
     = Some (JString ("**✅ 执行结果:**" ++ nl
                      ++ truncateRunes resultContent 500))
  /\ rune_count (truncateRunes resultContent 500) <= 500.
Proof.
  intros Hs Hin trimmed resultContent.
  destruct (run_sent_parsed cfg n e req Hs Hin) as (t & s & ->).
  destruct (payload_elements_cardMsg n t s) as (H0 & _ & H1 & H2 & H3).
  repeat split; try assumption.
  apply truncateRunes_bound. lia.
Qed.

(** C9. In the card that a run sends, the header title is its prefix
    followed by the first input message cut by [truncateRunes] to at most 30
    code points; without input messages it is the prefix followed by the
    placeholder ["Unknown Task"]. *)
Theorem title_is_first_message_truncated cfg n e req :
  startup w no_effects = (Returned (cfg, n), e) ->
  In req (sent (snd (run w))) ->
  (forall m ms,
      InputMessages n = m :: ms ->
      payload_title (req_Body req)
      = Some (JString ("🤖 Codex 任务完成: " ++ truncateRunes m 30))
      /\ rune_count (truncateRunes m 30) <= 30)
  /\ (InputMessages n = [] ->
      payload_title (req_Body req)
      = Some (JString ("🤖 Codex 任务完成: " ++ "Unknown Task"))).
Proof.
  intros Hs Hin.
  destruct (run_sent_parsed cfg n e req Hs Hin) as (t & s & ->).
  rewrite payload_title_cardMsg. split.
  - intros m ms ->. split; [reflexivity |].
    apply truncateRunes_bound. lia.
  - intros ->. reflexivity.
Qed.
End Card.

Lemma result_block_is_trimmed_then_truncated_witness :
  exists req,
    In req (sent (snd (@run Sample.library
                         (Sample.world Sample.demo_json Sample.hook None
                            Sample.accepted))))
    /\ and_then (payload_element 2 (req_Body req)) element_text
       = Some (JString ("**✅ 执行结果:**" ++ nl ++ "all done")).
Proof.
  eexists. split.
  - vm_compute. left. reflexivity.
  - refine (proj1 (proj2 (proj2 (proj2
        (@result_block_is_trimmed_then_truncated Sample.library
           (Sample.world Sample.demo_json Sample.hook None Sample.accepted)
           _ Sample.demo _ _ _ _))))).
    + vm_compute. reflexivity.
    + vm_compute. left. reflexivity.
Defined.

Lemma title_is_first_message_truncated_witness :
  exists req,
    In req (sent (snd (@run Sample.library
                         (Sample.world Sample.demo_json Sample.hook None
                            Sample.accepted))))
    /\ payload_title (req_Body req)
       = Some (JString ("🤖 Codex 任务完成: " ++ "demo task")).
Proof.
  eexists. split.
  - vm_compute. left. reflexivity.
  - refine (proj1 (proj1
        (@title_is_first_message_truncated Sample.library
           (Sample.world Sample.demo_json Sample.hook None Sample.accepted)
           _ Sample.demo _ _ _ _) "demo task" [] eq_refl)).
    + vm_compute. reflexivity.
    + vm_compute. left. reflexivity.
Defined.

(** * Further properties of the code *)

(** ** The model on known values

    Conversions between strings and runes, the digests of FIPS 180-4 and
    RFC 4231, and the encodings of RFC 4648. *)

Example runes_of_mixed_widths :
  utf8.stringtoslicerune "aé（😀" = [0x61; 0xE9; 0xFF08; 0x1F600].
Proof. vm_compute. reflexivity. Qed.

Example string_of_mixed_widths :
  utf8.slicerunetostring [0x61; 0xE9; 0xFF08; 0x1F600] = "aé（😀".
Proof. vm_compute. reflexivity. Qed.

(** A byte that starts no sequence, an overlong form and an encoded surrogate
    decode byte by byte to [runeError]. *)
Example runes_of_invalid_bytes :
  utf8.stringtoslicerune
    (String (byte_of 0xFF)
       (String (byte_of 0xC0) (String (byte_of 0x80)
          (String (byte_of 0xED) (String (byte_of 0xA0) (String (byte_of 0x80)
             "z"))))))
  = [0xFFFD; 0xFFFD; 0xFFFD; 0xFFFD; 0xFFFD; 0xFFFD; 0x7A].
Proof. vm_compute. reflexivity. Qed.

(** A surrogate and a value above [maxRune] are written as [runeError]. *)
Example encoderune_of_invalid_runes :
  utf8.encoderune 0xD800 = utf8.encoderune utf8.runeError
  /\ utf8.encoderune 0x110000 = utf8.encoderune utf8.runeError
  /\ utf8.encoderune (-1) = utf8.encoderune utf8.runeError.
Proof. vm_compute. auto. Qed.

Example truncateRunes_counts_code_points :
  truncateRunes "日本語のテキスト" 6 = "日本語..."
  /\ truncateRunes "日本語のテキスト" 8 = "日本語のテキスト"
  /\ truncateRunes "日本語のテキスト" 2 = "日本"
  /\ truncateRunes "日本語のテキスト" 0 = "".
Proof. vm_compute. auto. Qed.

Example FormatInt_values :
  FormatInt 0 = "0" /\ FormatInt 1700000000 = "1700000000" /\ FormatInt (-15) = "-15".
Proof. vm_compute. auto. Qed.

Example base64_values :
  base64.EncodeToString "foobar" = "Zm9vYmFy"
  /\ base64.EncodeToString "fooba" = "Zm9vYmE="
  /\ base64.EncodeToString "foob" = "Zm9vYg=="
  /\ base64.EncodeToString "" = "".
Proof. vm_compute. auto. Qed.

Example Sum256_values :
  base64.EncodeToString (sha256.Sum256 "")
  = "47DEQpj8HBSa+/TImW+5JCeuQeRkm5NMpJWZG3hSuFU="
  /\ base64.EncodeToString (sha256.Sum256 "abc")
     = "ungWv48Bz+pBQUDeXa4iI7ADYaOWF3qctBD/YfIAFa0="
  /\ base64.EncodeToString
       (sha256.Sum256 "abcdbcdecdefdefgefghfghighijhijkijkljklmklmnlmnomnopnopq")
     = "JI1qYdIGOLjlwCaTDD5gOaM85Flk/yFn9uzt1BnbBsE=".
Proof. vm_compute. auto. Qed.

(** RFC 4231, test case 2, through the streaming interface. *)
Example hmac_value :
  base64.EncodeToString
    (hmac.hmac_Sum
       (fst (hmac.hmac_Write (hmac.New sha256_New "Jefe")
               "what do ya want for nothing?")) "")
  = "W9zBRr9gdU5qBCQmCJV1x1oAPwidJzmDnexYuWTsOEM=".
Proof. vm_compute. reflexivity. Qed.

Example GenSign_value :
  GenSign "mysecret" 1700000000
  = ("Jp33/xXhCipDEpjyHvEyc7mRSyXWHbNz6J8+C3qQKNo=", None).
Proof. vm_compute. reflexivity. Qed.

(** The README's local test, accepted by the webhook: one request, no output,
    exit code 0; and rejected for its signature: exit code 1. *)
Example demo_run_accepted :
  let w := Sample.world Sample.demo_json Sample.hook None Sample.accepted in
  @exit_code Sample.library w = 0
  /\ stdout (snd (@run Sample.library w)) = []
  /\ List.length (sent (snd (@run Sample.library w))) = 1%nat.
Proof. vm_compute. auto. Qed.

Example demo_run_rejected :
  let w := Sample.world Sample.demo_json Sample.hook (Some " s3cret ")
             Sample.sign_rejected in
  @exit_code Sample.library w = 1
  /\ stdout (snd (@run Sample.library w))
     = ["Failed to send notification: feishu error code=19021 statusCode=0 "
        ++ "msg=sign match fail statusMessage=" ++ nl]
  /\ map (fun req => member "sign" (req_Body req)) (sent (snd (@run Sample.library w)))
     = [Some (JString "IX3eHI0/v/Td7jqJ0ynSEK3Dq5JY3HUZeoeMgVZeZGo=")].
Proof. vm_compute. auto. Qed.

(** ** Strings and runes *)

Lemma slicerunetostring_app a b :
  utf8.slicerunetostring (a ++ b)
  = utf8.slicerunetostring a ++ utf8.slicerunetostring b.
Proof.
  induction a as [| r a IH]; cbn [utf8.slicerunetostring app append].
  - reflexivity.
  - rewrite IH, append_assoc. reflexivity.
Qed.

Lemma length_encoderune r : (1 <= String.length (utf8.encoderune r) <= 4)%nat.
Proof.
  unfold utf8.encoderune. cbv zeta.
  repeat match goal with
    | |- context [if ?c then _ else _] => destruct c
    end; cbn [String.length]; lia.
Qed.

Lemma length_slicerunetostring rs :
  (List.length rs <= String.length (utf8.slicerunetostring rs)
   <= 4 * List.length rs)%nat.
Proof.
  induction rs as [| r rs IH]; cbn [utf8.slicerunetostring List.length String.length].
  - lia.
  - rewrite length_append. pose proof (length_encoderune r). lia.
Qed.

(** A string has between a quarter of its bytes and all of its bytes as
    code points. *)
Lemma length_stringtoslicerune s :
  (List.length (utf8.stringtoslicerune s) <= String.length s
   <= 4 * List.length (utf8.stringtoslicerune s))%nat.
Proof.
  remember (String.length s) as k eqn:Hk.
  revert s Hk. induction k as [k IH] using lt_wf_ind. intros s Hk.
  destruct s as [| c s]; [cbn in *; lia |].
  rewrite stringtoslicerune_eq. cbn [List.length].
  pose proof (range_step_width (String c s)) as [[Hw1 Hw4] Hwl].
  set (w := snd (utf8.range_step (String c s))) in *.
  pose proof (length_drop w (String c s)) as Hd.
  cbn [String.length] in Hd, Hwl, Hk.
  specialize (IH (String.length (drop w (String c s)))).
  assert (Hlt : (String.length (drop w (String c s)) < k)%nat) by lia.
  specialize (IH Hlt _ eq_refl). lia.
Qed.

Lemma well_formed_encoded rs t :
  Forall utf8.valid rs -> well_formed t ->
  well_formed (utf8.slicerunetostring rs ++ t).
Proof.
  intros Hv Ht. unfold well_formed in *.
  rewrite stringtoslicerune_encode by exact Hv.
  rewrite slicerunetostring_app, Ht. reflexivity.
Qed.

Lemma well_formed_empty : well_formed "".
Proof. reflexivity. Qed.

Lemma well_formed_ellipsis : well_formed "...".
Proof. reflexivity. Qed.

(** The encoding of the first runes of a well-formed string is a prefix of
    its bytes. *)
Lemma slice_to_prefix k s :
  well_formed s ->
  HasPrefix s (utf8.slicerunetostring (slice_to k (utf8.stringtoslicerune s))).
Proof.
  intros Hs. unfold slice_to.
  exists (utf8.slicerunetostring (skipn (Z.to_nat k) (utf8.stringtoslicerune s))).
  rewrite <- slicerunetostring_app, firstn_skipn. symmetry. exact Hs.
Qed.

(** X1. Whatever the limit, [truncateRunes] returns at most [limit] code
    points (none for a limit that is zero or negative) and at most four bytes
    per code point of the limit. *)
Theorem truncateRunes_at_most_limit (s : string) (limit : Z) :
  rune_count (truncateRunes s limit) <= Z.max 0 limit
  /\ len (truncateRunes s limit) <= 4 * Z.max 0 limit.
Proof.
  assert (Hbytes : forall u, len u <= 4 * rune_count u).
  { intros u. unfold len, rune_count.
    pose proof (length_stringtoslicerune u). lia. }
  destruct (Z_le_gt_dec limit 0) as [H0 | H0].
  - unfold truncateRunes. rewrite (proj2 (Z.leb_le _ _) H0).
    change (rune_count "") with 0. change (len "") with 0. lia.
  - pose proof (truncateRunes_bound s limit ltac:(lia)) as Hb.
    specialize (Hbytes (truncateRunes s limit)). lia.
Qed.

(** X2. Truncating twice with the same limit is truncating once. *)
Theorem truncateRunes_idempotent (s : string) (limit : Z) :
  truncateRunes (truncateRunes s limit) limit = truncateRunes s limit.
Proof.
  destruct (Z_le_gt_dec limit 0) as [H0 | H0].
  - unfold truncateRunes. rewrite (proj2 (Z.leb_le _ _) H0). reflexivity.
  - apply truncateRunes_within. apply truncateRunes_bound. lia.
Qed.

(** X3. [truncateRunes] never cuts inside a character: its result is
    well-formed UTF-8 whenever the input is, and also whenever it had to
    truncate, even if the input was not. *)
Theorem truncateRunes_well_formed (s : string) (limit : Z) :
  well_formed s \/ limit < rune_count s ->
  well_formed (truncateRunes s limit).
Proof.
  intros H.
  destruct (Z_le_gt_dec limit 0) as [H0 | H0].
  { unfold truncateRunes. rewrite (proj2 (Z.leb_le _ _) H0).
    apply well_formed_empty. }
  destruct (Z_le_gt_dec (rune_count s) limit) as [Hle | Hgt].
  { rewrite truncateRunes_within by exact Hle.
    destruct H as [H | H]; [exact H | lia]. }
  destruct (Z_le_gt_dec limit 3) as [H3 | H3].
  - rewrite truncateRunes_cut by lia.
    rewrite <- (append_nil_r (utf8.slicerunetostring _)).
    apply well_formed_encoded; [apply slice_to_valid | apply well_formed_empty].
  - rewrite truncateRunes_marked by lia.
    apply well_formed_encoded; [apply slice_to_valid | apply well_formed_ellipsis].
Qed.

Lemma truncateRunes_well_formed_witness :
  well_formed (truncateRunes (String (byte_of 0xFF) "abcdef") 5).
Proof.
  apply truncateRunes_well_formed. right. vm_compute. reflexivity.
Defined.

(** X4. On well-formed input the kept text is a prefix of the input bytes:
    the whole result when no marker is added, the result without its marker
    otherwise. *)
Theorem truncateRunes_keeps_a_prefix (s : string) (limit : Z) :
  well_formed s ->
  (limit <= 3 \/ rune_count s <= limit -> HasPrefix s (truncateRunes s limit))
  /\ (3 < limit < rune_count s ->
      exists kept,
        truncateRunes s limit = kept ++ "..."
        /\ HasPrefix s kept
        /\ rune_count kept = limit - 3).
Proof.
  intros Hs. split.
  - intros H.
    destruct (Z_le_gt_dec (rune_count s) limit) as [Hle | Hgt].
    + rewrite truncateRunes_within by exact Hle. exists "".
      now rewrite append_nil_r.
    + destruct H as [H3 | H]; [| lia].
      rewrite truncateRunes_cut by lia. apply slice_to_prefix. exact Hs.
  - intros [H3 Hgt].
    exists (utf8.slicerunetostring (slice_to (limit - 3) (utf8.stringtoslicerune s))).
    split; [apply truncateRunes_marked; lia |].
    split; [apply slice_to_prefix; exact Hs |].
    unfold rune_count. rewrite stringtoslicerune_of_slice by apply slice_to_valid.
    apply length_slice_to. unfold rune_count in Hgt. lia.
Qed.

Lemma truncateRunes_keeps_a_prefix_witness :
  HasPrefix "héllo" (truncateRunes "héllo" 2)
  /\ exists kept,
      truncateRunes "héllo wörld" 8 = kept ++ "..."
      /\ HasPrefix "héllo wörld" kept
      /\ rune_count kept = 8 - 3.
Proof.
  split.
  - apply (proj1 (truncateRunes_keeps_a_prefix "héllo" 2 eq_refl)).
    left. lia.
  - apply (proj2 (truncateRunes_keeps_a_prefix "héllo wörld" 8 eq_refl)).
    vm_compute. split; reflexivity.
Defined.

Lemma scalar_or_error_valid r : utf8.valid (scalar_or_error r).
Proof.
  unfold scalar_or_error.
  destruct ((0 <=? r) && (r <=? utf8.maxRune)
            && negb ((utf8.surrogateMin <=? r) && (r <=? utf8.surrogateMax))) eqn:E.
  - bool_hyps; unfold utf8.valid; utf8_consts; lia.
  - apply valid_runeError.
Qed.

(** The encoder writes a rune that is no scalar value as [runeError]. *)
Lemma encoderune_scalar_or_error r :
  - 2 ^ 31 <= r < 2 ^ 31 ->
  utf8.encoderune r = utf8.encoderune (scalar_or_error r).
Proof.
  intros Hr. unfold scalar_or_error.
  destruct ((0 <=? r) && (r <=? utf8.maxRune)
            && negb ((utf8.surrogateMin <=? r) && (r <=? utf8.surrogateMax))) eqn:E;
    [reflexivity |].
  assert (Hi : utf8.maxRune < r mod 2 ^ 32
               \/ utf8.surrogateMin <= r mod 2 ^ 32 <= utf8.surrogateMax).
  { utf8_consts. bool_hyps; lia. }
  unfold utf8.encoderune at 1. cbv zeta.
  destruct (Z.leb_spec (r mod 2 ^ 32) utf8.rune1Max) as [H | _];
    [utf8_consts; lia |].
  destruct (Z.leb_spec (r mod 2 ^ 32) utf8.rune2Max) as [H | _];
    [utf8_consts; lia |].
  replace ((utf8.maxRune <? r mod 2 ^ 32)
           || ((utf8.surrogateMin <=? r mod 2 ^ 32)
               && (r mod 2 ^ 32 <=? utf8.surrogateMax))) with true.
  - reflexivity.
  - symmetry. apply orb_true_iff. destruct Hi as [Hi | Hi].
    + left. apply Z.ltb_lt. exact Hi.
    + right. apply andb_true_iff. split; apply Z.leb_le; lia.
Qed.

(** X5. Converting runes to a string and back gives the runes again, with
    every rune that is not a Unicode scalar value (negative, a surrogate, or
    above U+10FFFF) replaced by [runeError]. *)
Theorem runes_round_trip (rs : list Z) :
  Forall (fun r => - 2 ^ 31 <= r < 2 ^ 31) rs ->
  utf8.stringtoslicerune (utf8.slicerunetostring rs) = map scalar_or_error rs.
Proof.
  intros Hrs.
  assert (E : utf8.slicerunetostring rs
              = utf8.slicerunetostring (map scalar_or_error rs)).
  { induction Hrs as [| r rs Hr Hrs IH]; [reflexivity |].
    cbn [map utf8.slicerunetostring].
    rewrite IH, (encoderune_scalar_or_error r Hr). reflexivity. }
  rewrite E. apply stringtoslicerune_of_slice.
  clear. induction rs as [| r rs IH]; constructor.
  - apply scalar_or_error_valid.
  - exact IH.
Qed.

Lemma runes_round_trip_witness :
  utf8.stringtoslicerune (utf8.slicerunetostring [0x4E2D; 0xD800; -1; 0x1F600; 0x110000])
  = [0x4E2D; 0xFFFD; 0xFFFD; 0x1F600; 0xFFFD].
Proof.
  apply (runes_round_trip [0x4E2D; 0xD800; -1; 0x1F600; 0x110000]).
  repeat constructor; lia.
Defined.

(** ** Runs of the process *)

Section Runs.
Context {lib : Library}.
Variable w : World.

(** What [sendFeishuCard] leaves behind: it returns, prints nothing and adds
    at most one request. *)
Lemma sendFeishuCard_effects n cfg e :
  exists r e',
    sendFeishuCard w n cfg e = (Returned r, e')
    /\ stdout e' = stdout e
    /\ ((sent e' = sent e
         /\ exists err, http_NewRequest_error "POST" (WebhookURL cfg) = Some err
                        /\ r = Some err)
        \/ (http_NewRequest_error "POST" (WebhookURL cfg) = None
            /\ exists req, sent e' = (sent e ++ [req])%list
                           /\ req_Method req = "POST"
                           /\ req_URL req = WebhookURL cfg
                           /\ req_Header req = [("Content-Type", "application/json")])).
Proof.
  pose proof (signature_fields_eq w cfg) as Hf.
  destruct (if String.eqb (Secret cfg) "" then _ else _) as [t s] in Hf.
  rewrite (sendFeishuCard_eq w n cfg t s e Hf).
  destruct (http_NewRequest_error "POST" (WebhookURL cfg)) as [err |].
  - exists (Some err), e. split; [reflexivity |]. split; [reflexivity |].
    left. split; [reflexivity |]. exists err. auto.
  - cbv zeta. eexists _, _. split; [reflexivity |]. split; [reflexivity |].
    right. split; [reflexivity |]. eexists. split; [reflexivity |]. auto.
Qed.

Lemma run_takes_a_path : run_path w (run w).
Proof.
  destruct (Nat.eq_dec (List.length (os_Args w)) 2) as [Hargs | Hargs].
  2:{ replace (run w) with usage_error_run; [now constructor |].
      unfold run, main, bind, startup.
      rewrite (proj2 (Nat.eqb_neq _ _) Hargs). reflexivity. }
  destruct (String.eqb_spec (strings_TrimSpace (os_Getenv w "FEISHU_WEBHOOK_URL")) "")
    as [Hblank | Hurl].
  { rewrite (run_blank_webhook w Hblank), Hargs. now constructor. }
  assert (Hcfg : exists cfg, loadConfig w = (cfg, None)).
  { unfold loadConfig. rewrite (proj2 (String.eqb_neq _ _) Hurl). eauto. }
  destruct Hcfg as [cfg Hcfg].
  destruct (json_Unmarshal_CodexNotification (nth 1 (os_Args w) "")) as [n | err] eqn:Hn.
  2:{ replace (run w)
        with (Exited (A := unit) 1,
              {| stdout := ["Error parsing JSON: " ++ err ++ nl]; sent := [] |});
        [econstructor; eassumption |].
      unfold run, main, bind, startup.
      rewrite Hargs, Hcfg, Hn. reflexivity. }
  pose proof (startup_ok w cfg n no_effects Hargs Hcfg Hn) as Hs.
  rewrite (run_eq w _ _ Hs). cbn [fst snd]. unfold dispatch.
  destruct (String.eqb_spec (Type_ n) "agent-turn-complete") as [Ht | Ht].
  - unfold bind.
    destruct (sendFeishuCard_effects n cfg no_effects) as (r & e & E & _).
    rewrite E. destruct r as [err |].
    + unfold fmt_Print, os_Exit. eapply path_failed; eassumption.
    + eapply path_delivered; eassumption.
  - eapply path_skip; eassumption.
Qed.
End Runs.

Section RunProperties.
Context {lib : Library}.
Variable w : World.

Lemma sendFeishuCard_stdout n cfg r e :
  sendFeishuCard w n cfg no_effects = (Returned r, e) -> stdout e = [].
Proof.
  intros E. destruct (sendFeishuCard_effects w n cfg no_effects)
    as (r' & e' & E' & Hout & _).
  rewrite E in E'. injection E' as _ <-. exact Hout.
Qed.




(** X8. The run is the usage error run (one usage line, exit code 1, nothing
    sent) exactly when the process does not get exactly one argument;
    the environment and the webhook play no part in it. *)
Theorem usage_error_iff :
  run w = usage_error_run <-> List.length (os_Args w) <> 2%nat.
Proof.
  split.
  - intros H.
    destruct (run_takes_a_path w) as
      [Hargs | Hargs Hblank | cfg err Hargs Hcfg Hn | cfg n Hs Ht
      | cfg n e Hs Ht E | cfg n e err Hs Ht E];
      try exact Hargs; exfalso; try discriminate H.
    unfold usage_error_run in H. injection H as H _.
    rewrite (sendFeishuCard_stdout _ _ _ _ E) in H. cbn in H. discriminate H.
  - intros Hargs. unfold run, main, bind, startup.
    rewrite (proj2 (Nat.eqb_neq _ _) Hargs). reflexivity.
Qed.

(** X9. With one argument and a webhook URL, an argument that
    [json.Unmarshal] rejects ends the run with the parse error on standard
    output, exit code 1 and no request. *)
Theorem malformed_argument_is_parse_error (err : error) :
  List.length (os_Args w) = 2%nat ->
  strings_TrimSpace (os_Getenv w "FEISHU_WEBHOOK_URL") <> "" ->
  json_Unmarshal_CodexNotification (nth 1 (os_Args w) "") = Err err ->
  run w = (Exited 1, {| stdout := ["Error parsing JSON: " ++ err ++ nl];
                        sent := [] |})
  /\ exit_code w = 1.
Proof.
  intros Hargs Hurl Hn.
  assert (E : run w = (Exited 1, {| stdout := ["Error parsing JSON: " ++ err ++ nl];
                                    sent := [] |})).
  { unfold run, main, bind, startup, loadConfig.
    rewrite Hargs, (proj2 (String.eqb_neq _ _) Hurl), Hn. reflexivity. }
  split; [exact E |]. unfold exit_code. rewrite E. reflexivity.
Qed.
End RunProperties.

Lemma malformed_argument_is_parse_error_witness :
  @run Sample.library (Sample.world "{" Sample.hook None Sample.accepted)
  = (Exited 1, {| stdout := ["Error parsing JSON: unexpected end of JSON input" ++ nl];
                  sent := [] |}).
Proof.
  apply (@malformed_argument_is_parse_error Sample.library
           (Sample.world "{" Sample.hook None Sample.accepted)
           "unexpected end of JSON input").
  - reflexivity.
  - vm_compute. discriminate.
  - reflexivity.
Defined.

Section Delivering.
Context {lib : Library}.
Variable w : World.





(** X13. When [sendFeishuCard] returns an error for the parsed notification,
    the run prints that error after ["Failed to send notification: "] and
    exits with code 1. *)
Theorem failed_delivery_is_reported cfg n e e' (err : error) :
  startup w no_effects = (Returned (cfg, n), e) ->
  Type_ n = "agent-turn-complete" ->
  sendFeishuCard w n cfg no_effects = (Returned (Some err), e') ->
  run w = (Exited 1,
           {| stdout := ["Failed to send notification: " ++ err ++ nl];
              sent := sent e' |})
  /\ exit_code w = 1.
Proof.
  intros Hs Ht E.
  assert (R : run w = (Exited 1,
                       {| stdout := ["Failed to send notification: " ++ err ++ nl];
                          sent := sent e' |})).
  { rewrite (run_eq w _ _ Hs). cbn [fst snd]. unfold dispatch.
    rewrite (proj2 (String.eqb_eq _ _) Ht). unfold bind. rewrite E.
    unfold fmt_Print, os_Exit. rewrite (sendFeishuCard_stdout w _ _ _ _ E).
    reflexivity. }
  split; [exact R |]. unfold exit_code. rewrite R. reflexivity.
Qed.

(** X14. A run exits with code 0 exactly when it has parsed a notification
    and either its type is not ["agent-turn-complete"] or [sendFeishuCard]
    returned no error for it. *)
Theorem exit_zero_iff :
  exit_code w = 0
  <-> exists cfg n,
        startup w no_effects = (Returned (cfg, n), no_effects)
        /\ (Type_ n <> "agent-turn-complete"
            \/ fst (sendFeishuCard w n cfg no_effects) = Returned None).
Proof.
  split.
  - unfold exit_code.
    destruct (run_takes_a_path w) as
      [Hargs | Hargs Hblank | cfg err Hargs Hcfg Hn | cfg n Hs Ht
      | cfg n e Hs Ht E | cfg n e err Hs Ht E];
      cbn [fst usage_error_run config_error_run]; intros H; try discriminate H.
    + exists cfg, n. auto.
    + exists cfg, n. split; [exact Hs |]. right. rewrite E. reflexivity.
  - intros (cfg & n & Hs & H). unfold exit_code.
    rewrite (run_eq w _ _ Hs). cbn [fst snd]. unfold dispatch.
    destruct (String.eqb_spec (Type_ n) "agent-turn-complete") as [Ht | Ht].
    + destruct H as [H | H]; [contradiction |].
      unfold bind.
      destruct (sendFeishuCard w n cfg no_effects) as [r e]. cbn [fst] in H.
      rewrite H. reflexivity.
    + reflexivity.
Qed.
End Delivering.




Lemma failed_delivery_is_reported_witness :
  stdout (snd (@run Sample.library
                 (Sample.world Sample.demo_json Sample.hook None
                    (Err "connection refused"))))
  = ["Failed to send notification: connection refused" ++ nl]
  /\ @exit_code Sample.library
       (Sample.world Sample.demo_json Sample.hook None (Err "connection refused"))
     = 1.
Proof.
  destruct (@failed_delivery_is_reported Sample.library
              (Sample.world Sample.demo_json Sample.hook None
                 (Err "connection refused"))
              {| WebhookURL := "https://open.feishu.cn/open-apis/bot/v2/hook/demo";
                 Secret := "" |}
              Sample.demo no_effects
              (snd (@sendFeishuCard Sample.library
                      (Sample.world Sample.demo_json Sample.hook None
                         (Err "connection refused"))
                      Sample.demo
                      {| WebhookURL := "https://open.feishu.cn/open-apis/bot/v2/hook/demo";
                         Secret := "" |} no_effects))
              "connection refused")
    as [R X].
  - vm_compute. reflexivity.
  - reflexivity.
  - vm_compute. reflexivity.
  - split; [rewrite R; reflexivity | exact X].
Defined.

(** ** The card *)

Lemma member_msg_type m :
  member "msg_type" (marshal_FeishuCardMsg m) = Some (JString (msg_MsgType m)).
Proof.
  unfold marshal_FeishuCardMsg, omitempty_string. cbn [member].
  destruct (String.eqb (msg_Timestamp m) ""), (String.eqb (msg_Sign m) "");
    reflexivity.
Qed.

Lemma Join_contains (l : list string) (sep m : string) :
  In m l -> Contains (strings_Join l sep) m.
Proof.
  induction l as [| e l IH]; [intros [] |].
  intros [-> | Hin].
  - destruct l as [| e' l'].
    + exists "", "". cbn. now rewrite append_nil_r.
    + exists "", (sep ++ strings_Join (e' :: l') sep). reflexivity.
  - destruct l as [| e' l']; [destruct Hin |].
    destruct (IH Hin) as (p & q & E).
    exists (e ++ sep ++ p), q.
    change (strings_Join (e :: e' :: l') sep)
      with (e ++ sep ++ strings_Join (e' :: l') sep).
    rewrite E, !append_assoc. reflexivity.
Qed.

Lemma rune_count_append a b :
  well_formed a -> rune_count (a ++ b) = rune_count a + rune_count b.
Proof.
  intros Ha. unfold well_formed in Ha. unfold rune_count. rewrite <- Ha at 1.
  rewrite stringtoslicerune_encode by apply stringtoslicerune_valid.
  rewrite length_app. lia.
Qed.

Section CardProperties.
Context {lib : Library}.
Variable w : World.

(** X15. The card of every request has the same frame: message type
    ["interactive"], wide screen mode on, the ["indigo"] header template, and
    six elements in the order text, divider, text, divider, fields, note. *)
Theorem card_layout_is_fixed (req : Request) :
  In req (sent (snd (run w))) ->
  member "msg_type" (req_Body req) = Some (JString "interactive")
  /\ and_then (member "card" (req_Body req)) (member "config")
     = Some (JObject [("wide_screen_mode", JBool true)])
  /\ and_then (and_then (member "card" (req_Body req)) (member "header"))
       (member "template")
     = Some (JString "indigo")
  /\ exists items,
      payload_elements (req_Body req) = Some (JArray items)
      /\ map element_tag items
         = [Some (JString "div"); Some (JString "hr"); Some (JString "div");
            Some (JString "hr"); Some (JString "div"); Some (JString "note")].
Proof.
  intros Hin.
  destruct (run_sent w req Hin) as (cfg & n & t & s & _ & _ & _ & ->).
  cbn [post_request req_Body]. unfold payload_elements.
  rewrite member_msg_type, member_card.
  repeat split; try reflexivity.
  eexists. split; reflexivity.
Qed.

(** X16. The first text block holds the label and the input messages joined
    by newlines, uncut: every input message of the parsed notification
    appears in it. *)
Theorem every_input_message_is_shown cfg n e req :
  startup w no_effects = (Returned (cfg, n), e) ->
  In req (sent (snd (run w))) ->
  exists content,
    and_then (payload_element 0 (req_Body req)) element_text
    = Some (JString content)
    /\ content = "**📝 输入指令:**" ++ nl ++ strings_Join (InputMessages n) nl
    /\ forall m, In m (InputMessages n) -> Contains content m.
Proof.
  intros Hs Hin.
  destruct (run_sent_parsed w cfg n e req Hs Hin) as (t & s & ->).
  destruct (payload_elements_cardMsg w n t s) as (_ & H0 & _).
  eexists. split; [exact H0 |]. split; [reflexivity |].
  intros m Hm. destruct (Join_contains _ nl m Hm) as (p & q & E).
  exists ("**📝 输入指令:**" ++ nl ++ p), q.
  rewrite E, !append_assoc. reflexivity.
Qed.

(** X17. The fifth element shows the working directory and the thread
    identifier, each between backquotes in a short field, and has no text of
    its own; the text blocks have no fields; the note shows the clock reading
    after ["Generated by Codex at "]. *)
Theorem context_fields_and_note cfg n e req :
  startup w no_effects = (Returned (cfg, n), e) ->
  In req (sent (snd (run w))) ->
  and_then (payload_element 4 (req_Body req)) (member "fields")
  = Some (JArray
            [JObject [("is_short", JBool true);
                      ("text",
                       JObject [("tag", JString "lark_md");
                                ("content",
                                 JString ("**📂 工作路径:**" ++ nl
                                          ++ "`" ++ Cwd n ++ "`"))])];
             JObject [("is_short", JBool true);
                      ("text",
                       JObject [("tag", JString "lark_md");
                                ("content",
                                 JString ("**🆔 Thread ID:**" ++ nl
                                          ++ "`" ++ ThreadID n ++ "`"))])]])
  /\ and_then (payload_element 4 (req_Body req)) (member "text") = None
  /\ and_then (payload_element 0 (req_Body req)) (member "fields") = None
  /\ and_then (payload_element 2 (req_Body req)) (member "fields") = None
  /\ and_then (payload_element 5 (req_Body req)) (member "elements")
     = Some (JArray [JObject [("tag", JString "plain_text");
                              ("content",
                               JString ("Generated by Codex at " ++ now_Clock w))]]).
Proof.
  intros Hs Hin.
  destruct (run_sent_parsed w cfg n e req Hs Hin) as (t & s & ->).
  unfold payload_element. rewrite member_card.
  repeat split; reflexivity.
Qed.

(** X18. The texts that are cut stay short: the header title has at most 44
    code points and the second text block at most 512, whatever the
    notification holds. *)
Theorem cut_texts_are_bounded cfg n e req :
  startup w no_effects = (Returned (cfg, n), e) ->
  In req (sent (snd (run w))) ->
  exists title result,
    payload_title (req_Body req) = Some (JString title)
    /\ rune_count title <= 44
    /\ and_then (payload_element 2 (req_Body req)) element_text
       = Some (JString result)
    /\ rune_count result <= 512.
Proof.
  intros Hs Hin.
  destruct (run_sent_parsed w cfg n e req Hs Hin) as (t & s & ->).
  destruct (payload_elements_cardMsg w n t s) as (_ & _ & _ & _ & H2).
  eexists _, _. split; [apply payload_title_cardMsg |].
  split; [| split; [exact H2 |]].
  - rewrite rune_count_append by reflexivity.
    match goal with
    | |- context [truncateRunes ?u 30] =>
        pose proof (truncateRunes_bound u 30 ltac:(lia))
    end.
    change (rune_count "🤖 Codex 任务完成: ") with 14. lia.
  - rewrite <- append_assoc. rewrite rune_count_append by reflexivity.
    match goal with
    | |- context [truncateRunes ?u 500] =>
        pose proof (truncateRunes_bound u 500 ltac:(lia))
    end.
    change (rune_count ("**✅ 执行结果:**" ++ nl)) with 12. lia.
Qed.
End CardProperties.

Lemma card_layout_is_fixed_witness :
  exists req,
    In req (sent (snd (@run Sample.library
                         (Sample.world Sample.demo_json Sample.hook None
                            Sample.accepted))))
    /\ member "msg_type" (req_Body req) = Some (JString "interactive").
Proof.
  eexists. split.
  - vm_compute. left. reflexivity.
  - apply (@card_layout_is_fixed Sample.library
             (Sample.world Sample.demo_json Sample.hook None Sample.accepted)).
    vm_compute. left. reflexivity.
Defined.

Lemma every_input_message_is_shown_witness :
  exists req content,
    In req (sent (snd (@run Sample.library
                         (Sample.world Sample.demo_json Sample.hook None
                            Sample.accepted))))
    /\ and_then (payload_element 0 (req_Body req)) element_text
       = Some (JString content)
    /\ Contains content "demo task".
Proof.
  assert (Hin : In _ (sent (snd (@run Sample.library
                                   (Sample.world Sample.demo_json Sample.hook None
                                      Sample.accepted)))))
    by (vm_compute; left; reflexivity).
  destruct (@every_input_message_is_shown Sample.library
              (Sample.world Sample.demo_json Sample.hook None Sample.accepted)
              {| WebhookURL := "https://open.feishu.cn/open-apis/bot/v2/hook/demo";
                 Secret := "" |}
              Sample.demo no_effects _ eq_refl Hin)
    as (content & Htext & _ & Hall).
  eexists _, content. split; [exact Hin |]. split; [exact Htext |].
  apply Hall. left. reflexivity.
Defined.

Lemma context_fields_and_note_witness :
  exists req,
    In req (sent (snd (@run Sample.library
                         (Sample.world Sample.demo_json Sample.hook None
                            Sample.accepted))))
    /\ and_then (payload_element 5 (req_Body req)) (member "elements")
       = Some (JArray [JObject [("tag", JString "plain_text");
                                ("content",
                                 JString "Generated by Codex at 12:34:56")]]).
Proof.
  eexists. split.
  - vm_compute. left. reflexivity.
  - refine (proj2 (proj2 (proj2 (proj2
        (@context_fields_and_note Sample.library
           (Sample.world Sample.demo_json Sample.hook None Sample.accepted)
           {| WebhookURL := "https://open.feishu.cn/open-apis/bot/v2/hook/demo";
              Secret := "" |}
           Sample.demo no_effects _ eq_refl _))))).
    vm_compute. left. reflexivity.
Defined.

Lemma cut_texts_are_bounded_witness :
  exists req title,
    In req (sent (snd (@run Sample.library
                         (Sample.world Sample.demo_json Sample.hook None
                            Sample.accepted))))
    /\ payload_title (req_Body req) = Some (JString title)
    /\ rune_count title <= 44.
Proof.
  assert (Hin : In _ (sent (snd (@run Sample.library
                                   (Sample.world Sample.demo_json Sample.hook None
                                      Sample.accepted)))))
    by (vm_compute; left; reflexivity).
  destruct (@cut_texts_are_bounded Sample.library
              (Sample.world Sample.demo_json Sample.hook None Sample.accepted)
              {| WebhookURL := "https://open.feishu.cn/open-apis/bot/v2/hook/demo";
                 Secret := "" |}
              Sample.demo no_effects _ eq_refl Hin)
    as (title & result & Ht & Hb & _).
  eexists _, title. split; [exact Hin |]. split; [exact Ht | exact Hb].
Defined.

(** ** The signature *)

Lemma length_base64_encode n :
  forall l, List.length l = n ->
            String.length (base64.encode l) = (4 * ((n + 2) / 3))%nat.
Proof.
  induction n as [n IH] using lt_wf_ind. intros l Hl.
  destruct l as [| b0 [| b1 [| b2 l]]]; cbn [List.length] in Hl; subst n.
  - reflexivity.
  - reflexivity.
  - reflexivity.
  - cbn [base64.encode String.length].
    rewrite (IH (List.length l) ltac:(lia) l eq_refl).
    replace (S (S (S (List.length l))) + 2)%nat
      with (List.length l + 2 + 1 * 3)%nat by lia.
    rewrite Nat.div_add by lia. lia.
Qed.

(** Two bytes left over at the end give one padding character, one byte
    gives two. *)
Lemma base64_encode_padding n :
  forall l, List.length l = n ->
            ((n mod 3 = 2)%nat -> HasSuffix (base64.encode l) "=")
            /\ ((n mod 3 = 1)%nat -> HasSuffix (base64.encode l) "==").
Proof.
  induction n as [n IH] using lt_wf_ind. intros l Hl.
  destruct l as [| b0 [| b1 [| b2 l]]]; cbn [List.length] in Hl; subst n.
  - split; intros H; discriminate H.
  - split; intros H; [discriminate H |].
    cbn [base64.encode]. eexists (String _ (String _ "")). reflexivity.
  - split; intros H; [| discriminate H]. cbn [base64.encode].
    eexists (String _ (String _ (String _ ""))). reflexivity.
  - assert (Hm : (S (S (S (List.length l))) mod 3 = List.length l mod 3)%nat).
    { replace (S (S (S (List.length l)))) with (List.length l + 1 * 3)%nat by lia.
      apply Nat.Div0.mod_add. }
    rewrite Hm. cbn [base64.encode].
    destruct (IH (List.length l) ltac:(lia) l eq_refl) as [H2 H1].
    split; intros H; [destruct (H2 H) as [p ->] | destruct (H1 H) as [p ->]];
      eexists (String _ (String _ (String _ (String _ p)))); reflexivity.
Qed.

Lemma length_bytes_of_string s :
  List.length (bytes_of_string s) = String.length s.
Proof.
  unfold bytes_of_string. rewrite length_map.
  induction s as [| c s IH]; cbn; [reflexivity | now rewrite IH].
Qed.

(** X19. [GenSign] never returns an error, and its signature is always 44
    characters long and ends with one padding character: the base64 form of a
    32-byte digest. *)
Theorem GenSign_shape (secret : string) (timestamp : Z) :
  exists signature,
    GenSign secret timestamp = (signature, None)
    /\ String.length signature = 44%nat
    /\ HasSuffix signature "=".
Proof.
  exists (spec_signature secret timestamp).
  split; [apply GenSign_eq |].
  unfold spec_signature, base64.EncodeToString, spec_HMAC_SHA256.
  match goal with
  | |- context [bytes_of_string (sha256.Sum256 ?x)] =>
      pose proof (length_Sum256 x) as Hlen;
      generalize dependent (sha256.Sum256 x)
  end.
  intros digest Hlen.
  rewrite <- length_bytes_of_string in Hlen.
  split.
  - rewrite (length_base64_encode _ _ Hlen). reflexivity.
  - apply (base64_encode_padding _ _ Hlen). reflexivity.
Qed.

(** The decimal form of an integer has no newline in it. *)
Lemma string_of_uint_no_newline d p q :
  NilEmpty.string_of_uint d <> p ++ nl ++ q.
Proof.
  revert p. induction d; intros p E; cbn in E;
    try (destruct p as [| c p]; cbn in E;
         [discriminate E | injection E as _ E; eapply IHd; exact E]).
  destruct p; discriminate E.
Qed.

Lemma FormatInt_no_newline i p q : FormatInt i <> p ++ nl ++ q.
Proof.
  unfold FormatInt. destruct (Z.to_int i) as [d | d]; cbn.
  - destruct d; try apply string_of_uint_no_newline.
    destruct p as [| c [| c' p]]; cbn; discriminate.
  - intros E. destruct p as [| c p]; cbn in E; [discriminate E |].
    injection E as _ E.
    destruct d; try (eapply string_of_uint_no_newline; exact E).
    destruct p as [| c1 [| c2 p]]; cbn in E; discriminate E.
Qed.

Lemma to_int_not_nil i : Z.to_int i <> Decimal.Pos Decimal.Nil
                         /\ Z.to_int i <> Decimal.Neg Decimal.Nil.
Proof.
  destruct i as [| p | p]; cbn; split; try discriminate;
    intros E; injection E as E;
    exact (DecimalPos.Unsigned.to_uint_nonnil p E).
Qed.

Lemma FormatInt_inj a b : FormatInt a = FormatInt b -> a = b.
Proof.
  unfold FormatInt. intros E. apply DecimalZ.to_int_inj.
  destruct (to_int_not_nil a) as [Ha1 Ha2].
  destruct (to_int_not_nil b) as [Hb1 Hb2].
  pose proof (NilZero.isi _ Ha1 Ha2) as Ia.
  pose proof (NilZero.isi _ Hb1 Hb2) as Ib.
  rewrite E in Ia. rewrite Ia in Ib. now injection Ib.
Qed.

Lemma split_at_newline a : forall b x y,
  (forall p q, a <> p ++ nl ++ q) ->
  (forall p q, b <> p ++ nl ++ q) ->
  a ++ nl ++ x = b ++ nl ++ y ->
  a = b /\ x = y.
Proof.
  induction a as [| c a IH]; intros b x y Ha Hb E.
  - destruct b as [| c' b].
    + cbn in E. injection E as E. auto.
    + exfalso. cbn in E. injection E as Hc E.
      apply (Hb "" b). rewrite <- Hc. reflexivity.
  - destruct b as [| c' b].
    + exfalso. cbn in E. injection E as Hc E.
      apply (Ha "" a). rewrite Hc. reflexivity.
    + cbn in E. injection E as Hc E.
      destruct (IH b x y) as [-> ->].
      * intros p q Hp. apply (Ha (String c p) q). rewrite Hp. reflexivity.
      * intros p q Hp. apply (Hb (String c' p) q). rewrite Hp. reflexivity.
      * exact E.
      * rewrite Hc. auto.
Qed.

(** X20. The key that [GenSign] signs with determines the timestamp and the
    secret: two different pairs never give the same key. *)
Theorem signing_key_is_injective (ts1 ts2 : Z) (secret1 secret2 : string) :
  FormatInt ts1 ++ nl ++ secret1 = FormatInt ts2 ++ nl ++ secret2 ->
  ts1 = ts2 /\ secret1 = secret2.
Proof.
  intros E.
  destruct (split_at_newline _ _ _ _ (FormatInt_no_newline ts1)
              (FormatInt_no_newline ts2) E) as [Hts Hs].
  split; [apply FormatInt_inj; exact Hts | exact Hs].
Qed.

Lemma signing_key_is_injective_witness :
  1700000000 = 1700000000 /\ "s3cret" = "s3cret".
Proof.
  apply (signing_key_is_injective 1700000000 1700000000 "s3cret" "s3cret").
  reflexivity.
Defined.

Section Accepted.
Context {lib : Library}.
Variable w : World.

End Accepted.

